(** * cambridgeavr.protocol: the AVR protocol handler, embedded and verified

    A shallow embedding of [cambridgeavr/protocol.py]: the catalog, the
    conversion functions between attenuation and volume, the frame
    assembler, the message decoder with its state store, the volume
    synchronisation state machine and the public accessors.

    Python values are modelled as follows.
    - [int] is [Z]; [str] is [string] restricted to ASCII, which is the
      character set of the wire protocol (so [bytes.decode] is the identity
      and [int(str)] needs no Unicode digits);
    - [float] is IEEE 754 binary64, through [spec_float] with precision 53
      and maximal exponent 1024, with the operations rounded to nearest even;
    - a raised exception is [Raise e]; [try ... except ValueError] is
      [except_ValueError];
    - the attributes that the handler creates and reads by computed name
      ([setattr]/[getattr] on ["_" + name]) live in a finite map, the others
      are record fields;
    - the asyncio loop is its queue of ready handles and its list of timers,
      the transport is the list of the byte strings written so far and the
      flag of paused reading. *)

From Stdlib Require Import ZArith Ascii String List Bool Lia.
From Stdlib Require Import DecimalString.
From Stdlib Require Import Floats.SpecFloat.
From stdpp Require Import base option gmap strings.
Import ListNotations.

Local Open Scope string_scope.
Local Open Scope Z_scope.

(** ** Exceptions and results *)

Inductive Exn : Type :=
| AttributeError
| KeyError
| NameError
| OverflowError
| TypeError
| ValueError
| ZeroDivisionError.

Inductive Result (A : Type) : Type :=
| Ok (a : A)
| Raise (e : Exn).

Arguments Ok {A} a.
Arguments Raise {A} e.

#[global] Instance Result_ret : MRet Result := fun A a => Ok a.

#[global] Instance Result_bind : MBind Result := fun A B f r =>
  match r with
  | Ok a => f a
  | Raise e => Raise e
  end.

(** [try: r except ValueError: return d]; every other exception goes on. *)
Definition except_ValueError {A : Type} (r : Result A) (d : A) : Result A :=
  match r with
  | Raise ValueError => Ok d
  | _ => r
  end.

(** ** Strings *)

Definition CR : ascii := ascii_of_nat 13.

(** [data.startswith(p)] *)
Definition startswith (data p : string) : bool := String.prefix p data.

(** [data[n:]] *)
Fixpoint slice_from (n : nat) (data : string) : string :=
  match n, data with
  | O, _ => data
  | S _, EmptyString => EmptyString
  | S n', String _ rest => slice_from n' rest
  end.

(** [s.split(sep)] for a separator of one character: never the empty list,
    and a string that ends with the separator gives a last empty segment. *)
Fixpoint split (sep : ascii) (s : string) : list string :=
  match s with
  | EmptyString => [EmptyString]
  | String c rest =>
      if Ascii.eqb c sep then EmptyString :: split sep rest
      else match split sep rest with
           | [] => [String c EmptyString]
           | seg :: segs => String c seg :: segs
           end
  end.

(** ** [int(str)] in base ten

    Leading and trailing ASCII whitespace (codes 9 to 13 and 32) is dropped,
    one sign is allowed, and single underscores may separate digits. The
    limit that newer interpreters put on the number of digits is not
    modelled. *)

Definition is_space (c : ascii) : bool :=
  let n := nat_of_ascii c in
  ((9 <=? n)%nat && (n <=? 13)%nat) || (n =? 32)%nat.

Definition digit_of (c : ascii) : option Z :=
  let n := nat_of_ascii c in
  if ((48 <=? n)%nat && (n <=? 57)%nat) then Some (Z.of_nat (n - 48)) else None.

Fixpoint lstrip (s : string) : string :=
  match s with
  | String c rest => if is_space c then lstrip rest else s
  | EmptyString => s
  end.

Fixpoint all_space (s : string) : bool :=
  match s with
  | String c rest => is_space c && all_space rest
  | EmptyString => true
  end.

(** The digits after a first digit, whose value so far is [acc]. *)
Fixpoint more_digits (acc : Z) (s : string) : option Z :=
  match s with
  | EmptyString => Some acc
  | String c rest =>
      match digit_of c with
      | Some d => more_digits (acc * 10 + d) rest
      | None =>
          if Ascii.eqb c "_"%char then
            match rest with
            | String c' rest' =>
                match digit_of c' with
                | Some d => more_digits (acc * 10 + d) rest'
                | None => None
                end
            | EmptyString => None
            end
          else if all_space s then Some acc else None
      end
  end.

Definition unsigned_digits (s : string) : option Z :=
  match s with
  | String c rest =>
      match digit_of c with
      | Some d => more_digits d rest
      | None => None
      end
  | EmptyString => None
  end.

Definition parse_int (s : string) : option Z :=
  match lstrip s with
  | String c rest =>
      if Ascii.eqb c "+"%char then unsigned_digits rest
      else if Ascii.eqb c "-"%char then Z.opp <$> unsigned_digits rest
      else unsigned_digits (String c rest)
  | EmptyString => None
  end.

(** [int(s)] for a [str]: [ValueError] when the text is no integer. *)
Definition int_of_str (s : string) : Result Z :=
  match parse_int s with
  | Some n => Ok n
  | None => Raise ValueError
  end.

(** ** [float]: IEEE 754 binary64 *)

Definition prec : Z := 53.
Definition emax : Z := 1024.

Definition fadd : spec_float -> spec_float -> spec_float := SFadd prec emax.
Definition fmul : spec_float -> spec_float -> spec_float := SFmul prec emax.
Definition fdiv : spec_float -> spec_float -> spec_float := SFdiv prec emax.

(** [float(n)] for an [int]: the nearest double, [OverflowError] beyond the
    largest one. *)
Definition float_of_int (n : Z) : Result spec_float :=
  match binary_normalize prec emax n 0 false with
  | S754_infinity _ => Raise OverflowError
  | f => Ok f
  end.

(** [a / b] for two [int]s: the quotient of the integers themselves, rounded
    once. *)
Definition exact_int (n : Z) : spec_float :=
  match n with
  | Z0 => S754_zero false
  | Zpos m => S754_finite false m 0
  | Zneg m => S754_finite true m 0
  end.

Definition int_truediv (a b : Z) : Result spec_float :=
  if b =? 0 then Raise ZeroDivisionError
  else match fdiv (exact_int a) (exact_int b) with
       | S754_infinity _ => Raise OverflowError
       | f => Ok f
       end.

(** [x / y] for two [float]s. *)
Definition float_truediv (x y : spec_float) : Result spec_float :=
  match y with
  | S754_zero _ => Raise ZeroDivisionError
  | _ => Ok (fdiv x y)
  end.

(** The integer nearest to [m * 2^e], ties to the even one. *)
Definition round_half_even (m : positive) (e : Z) : Z :=
  match e with
  | Zneg k =>
      let d := Z.pow 2 (Zpos k) in
      let q := Z.div (Zpos m) d in
      let r := Z.modulo (Zpos m) d in
      match Z.compare (2 * r) d with
      | Lt => q
      | Gt => q + 1
      | Eq => if Z.even q then q else q + 1
      end
  | _ => Zpos m * Z.pow 2 e
  end.

(** [round(x)] for a [float], without [ndigits]: an [int]. *)
Definition round_float (x : spec_float) : Result Z :=
  match x with
  | S754_zero _ => Ok 0
  | S754_infinity _ => Raise OverflowError
  | S754_nan => Raise ValueError
  | S754_finite s m e => Ok (cond_Zopp s (round_half_even m e))
  end.

(** [int(x)] for a [float]: towards zero. *)
Definition int_of_float (x : spec_float) : Result Z :=
  match x with
  | S754_zero _ => Ok 0
  | S754_infinity _ => Raise OverflowError
  | S754_nan => Raise ValueError
  | S754_finite s m e =>
      Ok (cond_Zopp s
            match e with
            | Zneg k => Z.div (Zpos m) (Z.pow 2 (Zpos k))
            | _ => Zpos m * Z.pow 2 e
            end)
  end.

(** ** The values a caller may pass

    The conversion functions take any value; [None], [int], [float] and
    [str] stand for them here ([bool] and the container types are left
    out). *)

Inductive PyValue : Type :=
| PyNone
| PyInt (n : Z)
| PyFloat (x : spec_float)
| PyStr (s : string).

(** [int(value)] *)
Definition py_int (value : PyValue) : Result Z :=
  match value with
  | PyNone => Raise TypeError
  | PyInt n => Ok n
  | PyFloat x => int_of_float x
  | PyStr s => int_of_str s
  end.

(** [value / n] for an [int] literal [n]; [str] and [None] have no [/]. *)
Definition py_truediv_int (value : PyValue) (n : Z) : Result spec_float :=
  match value with
  | PyNone => Raise TypeError
  | PyInt a => int_truediv a n
  | PyFloat x => y ← float_of_int n; float_truediv x y
  | PyStr _ => Raise TypeError
  end.

(** ** Conversion functions *)

(** [90.00] *)
Definition ninety : spec_float := binary_normalize prec emax 90 0 false.

Definition attenuation_to_volume (value : PyValue) : Result Z :=
  except_ValueError
    (n ← py_int value;
     x ← float_of_int n;
     d ← float_of_int 90;
     q ← float_truediv (fadd ninety x) d;
     h ← float_of_int 100;
     round_float (fmul q h))
    0.

Definition volume_to_attenuation (value : PyValue) : Result Z :=
  except_ValueError
    (q ← py_truediv_int value 100;
     d ← float_of_int 90;
     r ← round_float (fmul q d);
     Ok (r - 90))
    (-90).

(** ** Catalog *)

Definition CMD_SET_POWER_STATE : string := "1,01".
Definition POWER_STATE_ON : string := "1".
Definition POWER_STATE_OFF : string := "0".
Definition MUTE_STATE_OFF : string := "00".
Definition MUTE_STATE_ON : string := "01".
Definition CMD_VOLUME_UP : string := "1,02".
Definition CMD_VOLUME_DOWN : string := "1,03".
Definition CMD_SET_MUTE_STATE : string := "1,11".
Definition CMD_SELECT_INPUT : string := "2,01".

Definition ATTR_POWER_STATE : string := "#6,01".
Definition ATTR_MUTE_STATE : string := "#6,11".
Definition ATTR_VOLUME_UP : string := "#6,02".
Definition ATTR_VOLUME_DOWN : string := "#6,03".
Definition ATTR_SELECTED_INPUT : string := "#7,01".
Definition ATTR_AUDIO_SOURCE : string := "#7,04".
Definition ATTR_MYSTERY : string := "#7,05".
Definition ATTR_SW_VERSION : string := "#10,01".
Definition ATTR_PROTOCOL_VERSION : string := "#10,02".

(** A [dict] literal with [str] keys, in the order it is written. *)
Definition dict (V : Type) : Type := list (string * V).

Fixpoint dict_find {V : Type} (d : dict V) (k : string) : option V :=
  match d with
  | [] => None
  | (k', v) :: rest => if String.eqb k' k then Some v else dict_find rest k
  end.

(** [k in d] *)
Definition dict_mem {V : Type} (d : dict V) (k : string) : bool :=
  match dict_find d k with
  | Some _ => true
  | None => false
  end.

(** [d[k]] *)
Definition dict_get {V : Type} (d : dict V) (k : string) : Result V :=
  match dict_find d k with
  | Some v => Ok v
  | None => Raise KeyError
  end.

(** [for k in d] *)
Definition dict_keys {V : Type} (d : dict V) : list string := map fst d.

Definition LOOKUP : dict (dict string) :=
  [ (ATTR_POWER_STATE,
      [ ("name", "power_state"); ("description", "Power State");
        ("0", "Off"); ("1", "On") ]);
    (ATTR_MUTE_STATE,
      [ ("name", "mute_state"); ("description", "Mute State");
        ("00", "Off"); ("01", "On") ]);
    (ATTR_VOLUME_UP, [ ("name", "volume"); ("description", "Volume (Up)") ]);
    (ATTR_VOLUME_DOWN, [ ("name", "volume"); ("description", "Volume (Down)") ]);
    (ATTR_SELECTED_INPUT,
      [ ("name", "selected_input"); ("description", "Selected Input");
        ("01", "BD/DVD"); ("02", "Video 1"); ("03", "Video 2");
        ("04", "CD/AUX"); ("05", "Tape/MD/CDR"); ("O6", "Tuner");
        ("O7", "Video 3"); ("08", "Direct In"); ("09", "TV ARC") ]);
    (ATTR_AUDIO_SOURCE,
      [ ("name", "audio_source"); ("description", "Audio Source");
        ("00", "Analog"); ("01", "Digital"); ("02", "HDMI") ]);
    (ATTR_MYSTERY, [ ("name", "mystery"); ("description", "N/A") ]);
    (ATTR_SW_VERSION,
      [ ("name", "software_version");
        ("description", "Main Software Version") ]);
    (ATTR_PROTOCOL_VERSION,
      [ ("name", "protocol_version"); ("description", "Protocol Version") ]) ].

(** ** The handler and its collaborators *)

Inductive Level : Type := DEBUG | WARNING | ERROR.

Inductive LogArg : Type :=
| LStr (s : string)
| LInt (n : Z).

(** One call of the logger: the level, the format and its arguments (a
    message built by concatenation keeps its parts the same way). *)
Record LogRecord : Type := mkLogRecord {
  level : Level;
  msg : string;
  args : list LogArg
}.

(** The transport: what was written to it, in order, whether reading is
    paused, and the limits it reports for its write buffer. *)
Record Transport : Type := mkTransport {
  written : list string;
  reading_paused : bool;
  write_buffer_limits : Z * Z
}.

(** What the handler gives to [call_soon] and [call_later]. *)
Inductive Handle : Type :=
| H_poweron_callback
| H_refresh_volume (tries : Z)
| H_update_callback (data : string)
| H_connection_lost_callback.

(** The loop: the handles of [call_soon], first in first out, and the
    handles of [call_later] with their delays in seconds. *)
Record Loop : Type := mkLoop {
  ready : list Handle;
  timers : list (Z * Handle)
}.

(** The handler. [_update_callback] and [_connection_lost_callback] only say
    whether a callable was supplied; [attrs] holds the attributes named
    ["_" + LOOKUP[key]["name"]]. The attributes that no method reads
    ([_input_names], [_input_numbers], [_volume_update_success]) are left
    out. *)
Record AVR : Type := mkAVR {
  _loop : option Loop;
  log : list LogRecord;
  _connection_lost_callback : bool;
  _update_callback : bool;
  buffer : string;
  _poweron_refresh_successful : bool;
  _volume_update_state : Z;
  _volume_target : option Z;
  transport : option Transport;
  attrs : gmap string string
}.

Definition with_loop (self : AVR) (l : option Loop) : AVR :=
  mkAVR l (log self) (_connection_lost_callback self) (_update_callback self)
    (buffer self) (_poweron_refresh_successful self)
    (_volume_update_state self) (_volume_target self) (transport self)
    (attrs self).

Definition with_log (self : AVR) (l : list LogRecord) : AVR :=
  mkAVR (_loop self) l (_connection_lost_callback self) (_update_callback self)
    (buffer self) (_poweron_refresh_successful self)
    (_volume_update_state self) (_volume_target self) (transport self)
    (attrs self).

Definition with_buffer (self : AVR) (b : string) : AVR :=
  mkAVR (_loop self) (log self) (_connection_lost_callback self)
    (_update_callback self) b (_poweron_refresh_successful self)
    (_volume_update_state self) (_volume_target self) (transport self)
    (attrs self).

Definition with_poweron_refresh_successful (self : AVR) (b : bool) : AVR :=
  mkAVR (_loop self) (log self) (_connection_lost_callback self)
    (_update_callback self) (buffer self) b (_volume_update_state self)
    (_volume_target self) (transport self) (attrs self).

Definition with_volume_update_state (self : AVR) (n : Z) : AVR :=
  mkAVR (_loop self) (log self) (_connection_lost_callback self)
    (_update_callback self) (buffer self) (_poweron_refresh_successful self)
    n (_volume_target self) (transport self) (attrs self).

Definition with_volume_target (self : AVR) (t : option Z) : AVR :=
  mkAVR (_loop self) (log self) (_connection_lost_callback self)
    (_update_callback self) (buffer self) (_poweron_refresh_successful self)
    (_volume_update_state self) t (transport self) (attrs self).

Definition with_transport (self : AVR) (t : option Transport) : AVR :=
  mkAVR (_loop self) (log self) (_connection_lost_callback self)
    (_update_callback self) (buffer self) (_poweron_refresh_successful self)
    (_volume_update_state self) (_volume_target self) t (attrs self).

Definition with_attrs (self : AVR) (m : gmap string string) : AVR :=
  mkAVR (_loop self) (log self) (_connection_lost_callback self)
    (_update_callback self) (buffer self) (_poweron_refresh_successful self)
    (_volume_update_state self) (_volume_target self) (transport self) m.

(** [self.log.debug(msg, *args)] and [self.log.warning(msg, *args)] *)
Definition debug (self : AVR) (m : string) (a : list LogArg) : AVR :=
  with_log self (log self ++ [mkLogRecord DEBUG m a]).

Definition warning (self : AVR) (m : string) (a : list LogArg) : AVR :=
  with_log self (log self ++ [mkLogRecord WARNING m a]).

(** [getattr(self, name)] and [setattr(self, name, value)] *)
Definition getattr (self : AVR) (name : string) : Result string :=
  match attrs self !! name with
  | Some v => Ok v
  | None => Raise AttributeError
  end.

Definition setattr (self : AVR) (name value : string) : AVR :=
  with_attrs self (<[name := value]> (attrs self)).

(** [self._loop.call_soon(h)] and [self._loop.call_later(delay, h)]; without
    a loop the attribute access fails. *)
Definition call_soon (self : AVR) (h : Handle) : Result AVR :=
  match _loop self with
  | Some l => Ok (with_loop self (Some (mkLoop (ready l ++ [h]) (timers l))))
  | None => Raise AttributeError
  end.

Definition call_later (self : AVR) (delay : Z) (h : Handle) : Result AVR :=
  match _loop self with
  | Some l =>
      Ok (with_loop self (Some (mkLoop (ready l) (timers l ++ [(delay, h)]))))
  | None => Raise AttributeError
  end.

(** [f"_{LOOKUP[attr]['name']}"] *)
Definition attr_name (attr : string) : Result string :=
  entry ← dict_get LOOKUP attr;
  name ← dict_get entry "name";
  Ok ("_" +:+ name).

(** [__init__]: every attribute of the catalog starts as the empty string. *)
Fixpoint init_attrs (self : AVR) (keys : list string) : Result AVR :=
  match keys with
  | [] => Ok self
  | key :: rest =>
      name ← attr_name key;
      init_attrs (setattr self name "") rest
  end.

Definition __init__ (update_callback : bool) (loop : option Loop)
    (connection_lost_callback : bool) : Result AVR :=
  init_attrs
    (mkAVR loop [] connection_lost_callback update_callback "" false 0 None
       None ∅)
    (dict_keys LOOKUP).

(** [send_command]: a write that fails, as on a missing transport, is
    logged and the command is dropped. *)
Definition send_command (self : AVR) (command data : string) : AVR :=
  let command := "#" +:+ command +:+ "," +:+ data +:+ String CR "" in
  let self := debug self "> %s" [LStr command] in
  match transport self with
  | Some t =>
      with_transport self
        (Some (mkTransport (written t ++ [command]) (reading_paused t)
                 (write_buffer_limits t)))
  | None => warning self "No transport found, unable to send command" []
  end.

Definition _refresh_volume (self : AVR) (tries : Z) : Result AVR :=
  let self :=
    if _volume_update_state self =? 0
    then with_volume_update_state (debug self "Start Refresh Volume" []) 1
    else self in
  self ←
    (if _volume_update_state self =? 1 then
       if tries <? 10 then
         let self := debug self "Refresh Volume Try %s" [LInt (tries + 1)] in
         let self := send_command self CMD_VOLUME_DOWN "" in
         call_later self 2 (H_refresh_volume (tries + 1))
       else Ok (warning self "Refresh Volume timed out!" [])
     else Ok self);
  Ok (if _volume_update_state self =? 2
      then with_volume_update_state
             (debug self "Refresh Volume successful." []) 0
      else self).

Definition _poweron_callback (self : AVR) : Result AVR :=
  let self := debug self "AVR Powered on" [] in
  self ← _refresh_volume self 0;
  Ok (with_poweron_refresh_successful self true).

(** The name built by the f-string always starts with an underscore, so the
    branch that logs a missing name is never taken. *)
Definition _get_attribute_value (self : AVR) (attr : string) : Result string :=
  name ← attr_name attr;
  getattr self name.

Definition _set_attribute_value (self : AVR) (attr value : string)
    : Result AVR :=
  name ← attr_name attr;
  Ok (setattr self name value).

Definition _get_integer (self : AVR) (attr : string) : Result Z :=
  except_ValueError
    (value ← _get_attribute_value self attr; int_of_str value)
    0.

Definition _get_boolean (self : AVR) (attr : string) : Result bool :=
  except_ValueError
    (value ← _get_attribute_value self attr;
     n ← int_of_str value;
     Ok (negb (n =? 0)))
    false.

(** ** asyncio network functions *)

Definition connection_made (self : AVR) (t : Transport) : AVR :=
  let self := debug self "Connection established to AVR" [] in
  let self := with_transport self (Some t) in
  debug self "Write buffer limits %d to %d"
    [LInt (fst (write_buffer_limits t)); LInt (snd (write_buffer_limits t))].

(** [self.transport.pause_reading()] and [self.transport.resume_reading()] *)
Definition set_reading_paused (self : AVR) (b : bool) : Result AVR :=
  match transport self with
  | Some t =>
      Ok (with_transport self
            (Some (mkTransport (written t) b (write_buffer_limits t))))
  | None => Raise AttributeError
  end.

(** ** Properties read by the decoder *)

Definition power (self : AVR) : Result bool :=
  _get_boolean self ATTR_POWER_STATE.

(** [if self._volume_target:], false for [None] and for [0]. *)
Definition truthy (t : option Z) : bool :=
  match t with
  | Some n => negb (n =? 0)
  | None => false
  end.

(** ** The decoder *)

(** The debug line of a decoded attribute. *)
Definition log_decoded (self : AVR) (key value changeindicator : string)
    : Result AVR :=
  if dict_mem LOOKUP key then
    entry ← dict_get LOOKUP key;
    if dict_mem entry "description" then
      description ← dict_get entry "description";
      if dict_mem entry value then
        label ← dict_get entry value;
        Ok (debug self "%s: %s (%s) -> %s (%s)"
              [LStr changeindicator; LStr description; LStr key; LStr label;
               LStr value])
      else
        Ok (debug self "%s: %s (%s) -> %s"
              [LStr changeindicator; LStr description; LStr key; LStr value])
    else Ok self
  else
    Ok (debug self "%s: %s -> %s"
          [LStr changeindicator; LStr key; LStr value]).

(** [for key in LOOKUP: if data.startswith(key): ...; break], giving the
    handler with [recognized] and [newdata]. *)
Fixpoint scan_lookup (self : AVR) (data : string) (keys : list string)
    : Result (AVR * bool * bool) :=
  match keys with
  | [] => Ok (self, false, false)
  | key :: rest =>
      if startswith data key then
        let value := slice_from (String.length key + 1) data in
        oldvalue ← _get_attribute_value self key;
        let newdata := negb (String.eqb oldvalue value) in
        let changeindicator := if newdata then "New Value" else "Unchanged" in
        self ← log_decoded self key value changeindicator;
        self ← _set_attribute_value self key value;
        Ok (self, true, newdata)
      else scan_lookup self data rest
  end.

(** The volume update of [_parse_message]: convergence to the target, then
    the end of the probe. *)
Definition volume_update (self : AVR) : Result AVR :=
  volume ← _get_integer self ATTR_VOLUME_UP;
  let self :=
    if truthy (_volume_target self) then
      match _volume_target self with
      | Some target =>
          if negb (volume =? target) then
            send_command self
              (if target >? volume then CMD_VOLUME_UP else CMD_VOLUME_DOWN) ""
          else with_volume_target self None
      | None => self
      end
    else self in
  Ok (if _volume_update_state self =? 1
      then with_volume_update_state (send_command self CMD_VOLUME_UP "") 2
      else self).

(** The end of [_parse_message]: the update callback and the last log. *)
Definition notify (self : AVR) (data : string) (recognized newdata : bool)
    : Result AVR :=
  self ←
    (if newdata then
       if _update_callback self then call_soon self (H_update_callback data)
       else Ok self
     else Ok (debug self "No new data encountered" []));
  Ok (if recognized then self
      else debug self "Unrecognized response: %s" [LStr data]).

Definition _parse_message (self : AVR) (data : string) : Result AVR :=
  if startswith data "#11,01" then
    notify (warning self "Command Group Unknown" []) data true false
  else if startswith data "#11,02" then
    notify (warning self "Command Number in Group Unknown" []) data true false
  else if startswith data "#11,03" then
    notify (warning self "Command Data Error" []) data true false
  else
    '(self, recognized, newdata) ← scan_lookup self data (dict_keys LOOKUP);
    on ← power self;
    self ←
      (if on && negb (_poweron_refresh_successful self)
       then call_soon self H_poweron_callback
       else Ok self);
    if startswith data ATTR_VOLUME_UP || startswith data ATTR_VOLUME_DOWN then
      self ← volume_update self;
      notify self data true true
    else notify self data recognized newdata.

(** ** The frame assembler *)

(** [for message in ...: if message != "": self._parse_message(message)] *)
Fixpoint parse_messages (self : AVR) (messages : list string) : Result AVR :=
  match messages with
  | [] => Ok self
  | message :: rest =>
      self ←
        (if negb (String.eqb message "") then
           _parse_message
             (debug self "assembled message %s" [LStr message]) message
         else Ok self);
      parse_messages self rest
  end.

Definition _assemble_buffer (self : AVR) : Result AVR :=
  self ← set_reading_paused self true;
  self ← parse_messages self (split CR (buffer self));
  let self := with_buffer self "" in
  set_reading_paused self false.

Definition data_received (self : AVR) (data : string) : Result AVR :=
  let self := with_buffer self (buffer self +:+ data) in
  let self :=
    debug self "Received %d bytes from AVR: %s"
      [LInt (Z.of_nat (String.length (buffer self))); LStr (buffer self)] in
  _assemble_buffer self.

(** ** Public accessors *)

Definition attenuation (self : AVR) : Result Z :=
  match (value ← _get_attribute_value self ATTR_VOLUME_UP; int_of_str value) with
  | Raise ValueError => Ok (-90)
  | Raise NameError => Ok (-90)
  | r => r
  end.

(** [attenuation.setter] *)
Definition set_attenuation (self : AVR) (value : PyValue) : Result AVR :=
  volume ← _get_integer self ATTR_VOLUME_UP;
  match value with
  | PyInt value =>
      if (-90 <=? value) && (value <=? 0) && negb (value =? volume) then
        let self := debug self "Setting attenuation to " [LInt value] in
        let self := with_volume_target self (Some value) in
        Ok (send_command self
              (if value >? volume then CMD_VOLUME_UP else CMD_VOLUME_DOWN) "")
      else Ok self
  | _ => Ok self
  end.

Definition volume (self : AVR) : Result Z :=
  a ← attenuation self;
  attenuation_to_volume (PyInt a).

(** [volume.setter] *)
Definition set_volume (self : AVR) (value : PyValue) : Result AVR :=
  match value with
  | PyInt n =>
      if (0 <=? n) && (n <=? 100) then
        a ← volume_to_attenuation value;
        set_attenuation self (PyInt a)
      else Ok self
  | _ => Ok self
  end.

Definition mute (self : AVR) : Result bool :=
  _get_boolean self ATTR_MUTE_STATE.

Definition input_number (self : AVR) : Result Z :=
  _get_integer self ATTR_SELECTED_INPUT.

(** ** The loop at work *)

(** What a handle runs. The update callback and the connection-lost callback
    belong to the caller and leave the handler as it is. *)
Definition run_handle (self : AVR) (h : Handle) : Result AVR :=
  match h with
  | H_poweron_callback => _poweron_callback self
  | H_refresh_volume tries => _refresh_volume self tries
  | H_update_callback _ => Ok self
  | H_connection_lost_callback => Ok self
  end.

Fixpoint run_handles (self : AVR) (hs : list Handle) : Result AVR :=
  match hs with
  | [] => Ok self
  | h :: rest => self ← run_handle self h; run_handles self rest
  end.

(** One iteration of the loop: the handles that are ready now run in order;
    what they schedule waits for the next iteration. *)
Definition run_once (self : AVR) : Result AVR :=
  match _loop self with
  | Some l => run_handles (with_loop self (Some (mkLoop [] (timers l)))) (ready l)
  | None => Ok self
  end.

(** The oldest timer fires; [None] when no timer is armed. *)
Definition fire_timer (self : AVR) : option (Result AVR) :=
  match _loop self with
  | Some l =>
      match timers l with
      | (_, h) :: rest =>
          Some (run_handle (with_loop self (Some (mkLoop (ready l) rest))) h)
      | [] => None
      end
  | None => None
  end.

(** Up to [n] timers fire one after the other, with nothing decoded in
    between. *)
Fixpoint fire_timers (n : nat) (self : AVR) : Result AVR :=
  match n with
  | O => Ok self
  | S n' =>
      match fire_timer self with
      | Some r => self ← r; fire_timers n' self
      | None => Ok self
      end
  end.

(** ** Observations *)

(** The commands written to the transport so far. *)
Definition sent (self : AVR) : list string :=
  match transport self with
  | Some t => written t
  | None => []
  end.

(** The wire form of a command, as [send_command] builds it. *)
Definition wire (command data : string) : string :=
  "#" +:+ command +:+ "," +:+ data +:+ String CR "".

(** The messages handed to the decoder, from the log of the assembler. *)
Definition assembled (self : AVR) : list (list LogArg) :=
  map args
    (filter (fun r => String.eqb (msg r) "assembled message %s") (log self)).

(** The handles of the ready queue and of the timers. *)
Definition ready_handles (self : AVR) : list Handle :=
  match _loop self with
  | Some l => ready l
  | None => []
  end.

Definition armed_timers (self : AVR) : list (Z * Handle) :=
  match _loop self with
  | Some l => timers l
  | None => []
  end.

(** Every attribute of the catalog can be read. *)
Definition initialised (self : AVR) : bool :=
  forallb
    (fun key =>
       match _get_attribute_value self key with
       | Ok _ => true
       | Raise _ => false
       end)
    (dict_keys LOOKUP).

(** A handler on a fresh connection, with a loop, an update callback and a
    transport. *)
Definition fresh_transport : Transport := mkTransport [] false (16384, 65536).

Definition connected : Result AVR :=
  self ← __init__ true (Some (mkLoop [] [])) false;
  Ok (connection_made self fresh_transport).

Definition feed (chunks : list string) : Result AVR :=
  foldl (fun r chunk => self ← r; data_received self chunk) connected chunks.

(** ** Checks over a range of integers *)

(** The [n] integers from [lo] on. *)
Definition Z_range (lo : Z) (n : nat) : list Z :=
  map (fun i => lo + Z.of_nat i) (seq 0 n).

(** [v -> attenuation -> volume] stays within one of [v]. *)
Definition volume_round_trip_ok (v : Z) : bool :=
  match volume_to_attenuation (PyInt v) with
  | Ok a =>
      match attenuation_to_volume (PyInt a) with
      | Ok w => Z.abs (w - v) <=? 1
      | Raise _ => false
      end
  | Raise _ => false
  end.

(** [dB -> volume -> attenuation] stays within one of [dB]. *)
Definition attenuation_round_trip_ok (d : Z) : bool :=
  match attenuation_to_volume (PyInt d) with
  | Ok w =>
      match volume_to_attenuation (PyInt w) with
      | Ok a => Z.abs (a - d) <=? 1
      | Raise _ => false
      end
  | Raise _ => false
  end.

(** Whether a transport is attached. *)
Definition has_transport (self : AVR) : bool :=
  match transport self with
  | Some _ => true
  | None => false
  end.

(** ** Scenarios *)

(** A message with its terminator, as the device sends it. *)
Definition line (message : string) : string := message +:+ String CR "".

(** The handler of a result that did not raise. *)
Definition blank : AVR := mkAVR None [] false false "" false 0 None None ∅.

Definition the (r : Result AVR) : AVR :=
  match r with
  | Ok self => self
  | Raise _ => blank
  end.

(** The handler right after the connection is made. *)
Definition just_connected : AVR := the connected.

(** The handler after the device reported power on and the loop ran the
    handles this scheduled: the probe is requested, one Volume-Down is
    written and the retry timer is armed. *)
Definition probing : AVR :=
  the (self ← feed [line "#6,01,1"]; run_once self).

(** ** The rest of the handler *)

(** [bool(value)], as a conditional takes its test. *)
Definition py_truthy (value : PyValue) : bool :=
  match value with
  | PyNone => false
  | PyInt n => negb (n =? 0)
  | PyFloat (S754_zero _) => false
  | PyFloat _ => true
  | PyStr s => negb (String.eqb s "")
  end.

Definition _get_multiprop (self : AVR) (attr mode : string) : Result string :=
  value ← _get_attribute_value self attr;
  if String.eqb mode "raw" then Ok value
  else if dict_mem LOOKUP attr then
    entry ← dict_get LOOKUP attr;
    if dict_mem entry value then dict_get entry value else Ok value
  else Ok value.

(** [connection_lost(exc)]; [exc] is the text of the exception, if any. *)
Definition connection_lost (self : AVR) (exc : option string) : Result AVR :=
  let self := warning self "Lost connection to receiver" [] in
  let self :=
    match exc with
    | Some e => debug self e []
    | None => self
    end in
  let self := with_transport self None in
  if _connection_lost_callback self
  then call_soon self H_connection_lost_callback
  else Ok self.

(** [power.setter] and [mute.setter] *)
Definition set_power (self : AVR) (value : PyValue) : AVR :=
  send_command self CMD_SET_POWER_STATE
    (if py_truthy value then POWER_STATE_ON else POWER_STATE_OFF).

Definition set_mute (self : AVR) (value : PyValue) : AVR :=
  send_command self CMD_SET_MUTE_STATE
    (if py_truthy value then MUTE_STATE_ON else MUTE_STATE_OFF).

Definition volume_as_percentage (self : AVR) : Result spec_float :=
  v ← volume self;
  int_truediv v 100.

(** [1] as a [float], for the comparison with a [float]. *)
Definition float_one : spec_float := binary_normalize prec emax 1 0 false.

(** [volume_as_percentage.setter] *)
Definition set_volume_as_percentage (self : AVR) (value : PyValue)
    : Result AVR :=
  match value with
  | PyFloat x =>
      if SFleb (S754_zero false) x && SFleb x float_one then
        h ← float_of_int 100;
        r ← round_float (fmul x h);
        set_volume self (PyInt r)
      else Ok self
  | PyInt n =>
      if (0 <=? n) && (n <=? 1) then set_volume self (PyInt (n * 100))
      else Ok self
  | _ => Ok self
  end.

(** [x or "Unknown Version"] *)
Definition sw_version (self : AVR) : Result string :=
  v ← _get_attribute_value self ATTR_SW_VERSION;
  Ok (if String.eqb v "" then "Unknown Version" else v).

Definition protocol_version (self : AVR) : Result string :=
  v ← _get_attribute_value self ATTR_PROTOCOL_VERSION;
  Ok (if String.eqb v "" then "Unknown Version" else v).

(** ** Input numbers and names *)

Definition INPUT_NAMES : list (Z * string) :=
  [ (1, "BD/DVD"); (2, "Video 1"); (3, "Video 2"); (4, "CD/AUX");
    (5, "Tape/MD/CDR"); (6, "Tuner"); (7, "Video 3"); (8, "Direct In");
    (9, "TV ARC") ].

(** [d.get(k, default)] for the keys that are [int]s. *)
Fixpoint names_get (d : list (Z * string)) (k : Z) (default : string)
    : string :=
  match d with
  | [] => default
  | (k', v) :: rest => if k' =? k then v else names_get rest k default
  end.

(** [d[k] = v]: a key that is there keeps its place. *)
Fixpoint dict_set {V : Type} (d : dict V) (k : string) (v : V) : dict V :=
  match d with
  | [] => [(k, v)]
  | (k', v') :: rest =>
      if String.eqb k' k then (k', v) :: rest
      else (k', v') :: dict_set rest k v
  end.

(** [{v: k for k, v in INPUT_NAMES.items()}] *)
Definition INPUT_NUMBERS : dict Z :=
  fold_left (fun d kv => dict_set d (snd kv) (fst kv)) INPUT_NAMES [].

(** [list(INPUT_NAMES.values())] *)
Definition input_list : list string := map snd INPUT_NAMES.

Definition input_name (self : AVR) : Result string :=
  n ← input_number self;
  Ok (names_get INPUT_NAMES n "Unknown").

(** [f"{number:02d}"] *)
Definition format_02d (n : Z) : string :=
  let digits := NilZero.string_of_int (Z.to_int n) in
  if (0 <=? n) && (n <? 10) then "0" +:+ digits else digits.

(** [input_number.setter] *)
Definition set_input_number (self : AVR) (number : PyValue) : AVR :=
  match number with
  | PyInt n =>
      if (1 <=? n) && (n <=? 99) then
        let self := debug self ("Switching input to " +:+ format_02d n) [] in
        send_command self CMD_SELECT_INPUT (format_02d n)
      else self
  | _ => self
  end.

(** [input_name.setter]; a value that is no [str] is no key of the table. *)
Definition set_input_name (self : AVR) (value : PyValue) : AVR :=
  let number :=
    match value with
    | PyStr name =>
        match dict_find INPUT_NUMBERS name with
        | Some n => n
        | None => 0
        end
    | _ => 0
    end in
  if number >? 0 then set_input_number self (PyInt number) else self.

(** ** A handler in working order *)

(** The attributes of the catalog are there, and a loop and a transport are
    attached: the state of a handler from [__init__] with a loop, after
    [connection_made]. *)
Definition operational (self : AVR) : bool :=
  initialised self
  && match _loop self with Some _ => true | None => false end
  && has_transport self.

(** A command that moves the volume by one step. *)
Definition is_nudge (command : string) : bool :=
  String.eqb command (wire CMD_VOLUME_UP "")
  || String.eqb command (wire CMD_VOLUME_DOWN "").

(** A target of the convergence is unset or lies between -90 and 0. *)
Definition target_in_range (self : AVR) : bool :=
  match _volume_target self with
  | Some t => (-90 <=? t) && (t <=? 0)
  | None => true
  end.

(** * Properties *)

(** ** Conversion functions *)

Lemma in_Z_range (lo z : Z) (n : nat) :
  lo <= z < lo + Z.of_nat n -> In z (Z_range lo n).
Proof.
  intros Hz. unfold Z_range. apply in_map_iff.
  exists (Z.to_nat (z - lo)). split; [lia|].
  apply in_seq. lia.
Qed.

Lemma volume_round_trip_range :
  forallb volume_round_trip_ok (Z_range 0 101) = true.
Proof. vm_compute. reflexivity. Qed.

Lemma attenuation_round_trip_range :
  forallb attenuation_round_trip_ok (Z_range (-90) 91) = true.
Proof. vm_compute. reflexivity. Qed.

(** C6. For every integer volume [v] in [0, 100] the attenuation of [v]
    converts back to a volume within one of [v], and for every integer
    attenuation [d] in [-90, 0] the volume of [d] converts back to an
    attenuation within one of [d]; both conversions return. *)
Theorem conversions_round_trip (v d : Z) :
  0 <= v <= 100 -> -90 <= d <= 0 ->
  (exists a w,
      volume_to_attenuation (PyInt v) = Ok a /\
      attenuation_to_volume (PyInt a) = Ok w /\
      Z.abs (w - v) <= 1) /\
  (exists w a,
      attenuation_to_volume (PyInt d) = Ok w /\
      volume_to_attenuation (PyInt w) = Ok a /\
      Z.abs (a - d) <= 1).
Proof.
  intros Hv Hd. split.
  - pose proof volume_round_trip_range as H.
    rewrite forallb_forall in H.
    specialize (H v (in_Z_range 0 v 101 ltac:(lia))).
    unfold volume_round_trip_ok in H.
    destruct (volume_to_attenuation (PyInt v)) as [a|]; [|discriminate].
    destruct (attenuation_to_volume (PyInt a)) as [w|] eqn:Hw; [|discriminate].
    exists a, w. split; [reflexivity|]. split; [exact Hw|].
    apply Z.leb_le. exact H.
  - pose proof attenuation_round_trip_range as H.
    rewrite forallb_forall in H.
    specialize (H d (in_Z_range (-90) d 91 ltac:(lia))).
    unfold attenuation_round_trip_ok in H.
    destruct (attenuation_to_volume (PyInt d)) as [w|]; [|discriminate].
    destruct (volume_to_attenuation (PyInt w)) as [a|] eqn:Ha; [|discriminate].
    exists w, a. split; [reflexivity|]. split; [exact Ha|].
    apply Z.leb_le. exact H.
Qed.

Lemma conversions_round_trip_witness :
  (exists a w,
      volume_to_attenuation (PyInt 35) = Ok a /\
      attenuation_to_volume (PyInt a) = Ok w /\
      Z.abs (w - 35) <= 1) /\
  (exists w a,
      attenuation_to_volume (PyInt (-59)) = Ok w /\
      volume_to_attenuation (PyInt w) = Ok a /\
      Z.abs (a - -59) <= 1).
Proof. apply (conversions_round_trip 35 (-59)); lia. Defined.

(** A text that is no integer makes [attenuation_to_volume] return 0. *)
Lemma attenuation_to_volume_bad_text (s : string) :
  parse_int s = None -> attenuation_to_volume (PyStr s) = Ok 0.
Proof.
  intros H. unfold attenuation_to_volume, py_int, int_of_str.
  rewrite H. reflexivity.
Qed.

(** C7. On the text ["abc"], which is no number, [attenuation_to_volume]
    returns 0 but [volume_to_attenuation] raises [TypeError] instead of
    returning -90: it divides the text itself, and only [ValueError] is
    caught. The same holds for the empty text and for [None]. *)
Theorem volume_to_attenuation_raises_on_text :
  parse_int "abc" = None /\
  attenuation_to_volume (PyStr "abc") = Ok 0 /\
  volume_to_attenuation (PyStr "abc") = Raise TypeError /\
  volume_to_attenuation (PyStr "") = Raise TypeError /\
  volume_to_attenuation PyNone = Raise TypeError /\
  attenuation_to_volume PyNone = Raise TypeError.
Proof. repeat split. Qed.

(** ** Public accessors *)

(** C9. When the stored value of an attribute is no integer, as the empty
    string of an attribute never received, the integer read gives 0, the
    boolean read gives false, and so do [input_number], [power] and [mute];
    [attenuation] gives -90 and [volume] gives 0. No read raises. *)
Theorem accessors_fall_back_to_defaults (self : AVR) (attr value : string) :
  _get_attribute_value self attr = Ok value ->
  parse_int value = None ->
  parse_int "" = None /\
  _get_integer self attr = Ok 0 /\
  _get_boolean self attr = Ok false /\
  (attr = ATTR_SELECTED_INPUT -> input_number self = Ok 0) /\
  (attr = ATTR_POWER_STATE -> power self = Ok false) /\
  (attr = ATTR_MUTE_STATE -> mute self = Ok false) /\
  (attr = ATTR_VOLUME_UP ->
   attenuation self = Ok (-90) /\ volume self = Ok 0).
Proof.
  intros Hget Hparse.
  assert (Hint : _get_integer self attr = Ok 0).
  { unfold _get_integer. rewrite Hget. cbn. unfold int_of_str.
    rewrite Hparse. reflexivity. }
  assert (Hbool : _get_boolean self attr = Ok false).
  { unfold _get_boolean. rewrite Hget. cbn. unfold int_of_str.
    rewrite Hparse. reflexivity. }
  split; [reflexivity|]. split; [exact Hint|]. split; [exact Hbool|].
  split; [intros ->; exact Hint|].
  split; [intros ->; exact Hbool|].
  split; [intros ->; exact Hbool|].
  intros ->.
  assert (Hatt : attenuation self = Ok (-90)).
  { unfold attenuation. rewrite Hget. cbn. unfold int_of_str.
    rewrite Hparse. reflexivity. }
  split; [exact Hatt|].
  unfold volume. rewrite Hatt. reflexivity.
Qed.

(** ** The store and the decoder *)

Lemma initialised_get (s : AVR) (key : string) :
  initialised s = true -> In key (dict_keys LOOKUP) ->
  exists v, _get_attribute_value s key = Ok v.
Proof.
  unfold initialised. rewrite forallb_forall. intros H Hin.
  specialize (H key Hin).
  destruct (_get_attribute_value s key) as [v|]; [|discriminate].
  exists v. reflexivity.
Qed.

Lemma get_boolean_total (s : AVR) (key v : string) :
  _get_attribute_value s key = Ok v -> exists b, _get_boolean s key = Ok b.
Proof.
  intros H. unfold _get_boolean. rewrite H. cbn. unfold int_of_str.
  destruct (parse_int v); cbn; eauto.
Qed.

Lemma power_total (s : AVR) :
  initialised s = true -> exists b, power s = Ok b.
Proof.
  intros Hi.
  destruct (initialised_get s ATTR_POWER_STATE Hi) as [v Hv]; [cbn; tauto|].
  exact (get_boolean_total s _ v Hv).
Qed.

Lemma scan_lookup_no_match (s : AVR) (data : string) (keys : list string) :
  forallb (fun p => negb (startswith data p)) keys = true ->
  scan_lookup s data keys = Ok (s, false, false).
Proof.
  induction keys as [|k keys IH]; intros H; [reflexivity|].
  cbn in H. apply andb_true_iff in H as [Hk H].
  cbn. destruct (startswith data k); [discriminate|]. apply IH, H.
Qed.

(** C8. A message that starts with none of the three error prefixes and with
    no attribute prefix of the catalog is decoded without an exception; no
    stored attribute changes, no update callback is scheduled (the ready
    queue stays as it is or gains the power-on callback only), no timer is
    armed and nothing is written. *)
Theorem unknown_message_changes_nothing (s : AVR) (l : Loop) (data : string) :
  initialised s = true ->
  _loop s = Some l ->
  forallb (fun p => negb (startswith data p))
    (["#11,01"; "#11,02"; "#11,03"] ++ dict_keys LOOKUP) = true ->
  exists s',
    _parse_message s data = Ok s' /\
    attrs s' = attrs s /\
    (ready_handles s' = ready_handles s \/
     ready_handles s' = (ready_handles s ++ [H_poweron_callback])%list) /\
    armed_timers s' = armed_timers s /\
    transport s' = transport s /\
    _volume_target s' = _volume_target s /\
    _volume_update_state s' = _volume_update_state s.
Proof.
  intros Hi Hl H.
  rewrite forallb_app in H. apply andb_true_iff in H as [He Hk].
  cbn in He.
  destruct (startswith data "#11,01") eqn:E1; [discriminate|].
  destruct (startswith data "#11,02") eqn:E2; [discriminate|].
  destruct (startswith data "#11,03") eqn:E3; [discriminate|].
  assert (Hvu : startswith data ATTR_VOLUME_UP = false).
  { rewrite forallb_forall in Hk. specialize (Hk ATTR_VOLUME_UP).
    apply negb_true_iff, Hk. cbn. tauto. }
  assert (Hvd : startswith data ATTR_VOLUME_DOWN = false).
  { rewrite forallb_forall in Hk. specialize (Hk ATTR_VOLUME_DOWN).
    apply negb_true_iff, Hk. cbn. tauto. }
  unfold _parse_message. rewrite E1, E2, E3.
  rewrite (scan_lookup_no_match _ _ _ Hk). cbn -[power].
  destruct (power_total s Hi) as [on ->]. cbn.
  rewrite Hvu, Hvd. cbn.
  destruct (on && negb (_poweron_refresh_successful s)).
  - unfold call_soon. rewrite Hl. cbn. eexists. split; [reflexivity|].
    unfold ready_handles, armed_timers. cbn. rewrite Hl. cbn.
    repeat split. right. reflexivity.
  - cbn. eexists. split; [reflexivity|].
    unfold ready_handles, armed_timers. cbn.
    repeat split. left. reflexivity.
Qed.

(** ** The probe state across a decode *)

Lemma bind_Ok {A B : Type} (r : Result A) (f : A -> Result B) (b : B) :
  r ≫= f = Ok b -> exists a, r = Ok a /\ f a = Ok b.
Proof. destruct r as [a|e]; cbn; [eauto|discriminate]. Qed.

Lemma log_decoded_state (s s' : AVR) (key value ci : string) :
  log_decoded s key value ci = Ok s' ->
  _volume_update_state s' = _volume_update_state s.
Proof.
  unfold log_decoded. intros H.
  repeat match type of H with
         | (if ?c then _ else _) = _ => destruct c
         | _ ≫= _ = Ok _ => apply bind_Ok in H as (? & _ & H)
         end;
    injection H as <-; reflexivity.
Qed.

Lemma scan_lookup_state (s s' : AVR) (data : string) (keys : list string)
    (recognized newdata : bool) :
  scan_lookup s data keys = Ok (s', recognized, newdata) ->
  _volume_update_state s' = _volume_update_state s.
Proof.
  induction keys as [|k keys IH]; cbn; intros H.
  - injection H as <- _ _. reflexivity.
  - destruct (startswith data k); [|exact (IH H)].
    apply bind_Ok in H as (old & _ & H).
    apply bind_Ok in H as (s1 & H1 & H).
    apply bind_Ok in H as (s2 & H2 & H).
    injection H as <- _ _.
    unfold _set_attribute_value in H2.
    apply bind_Ok in H2 as (name & _ & H2). injection H2 as <-.
    cbn. exact (log_decoded_state _ _ _ _ _ H1).
Qed.

Lemma call_soon_state (s s' : AVR) (h : Handle) :
  call_soon s h = Ok s' ->
  _volume_update_state s' = _volume_update_state s.
Proof.
  unfold call_soon. destruct (_loop s); [|discriminate].
  intros H. injection H as <-. reflexivity.
Qed.

Lemma notify_state (s s' : AVR) (data : string) (recognized newdata : bool) :
  notify s data recognized newdata = Ok s' ->
  _volume_update_state s' = _volume_update_state s.
Proof.
  unfold notify. intros H. apply bind_Ok in H as (s1 & H1 & H).
  injection H as <-.
  assert (_volume_update_state s1 = _volume_update_state s) as <-.
  { destruct newdata; [destruct (_update_callback s)|].
    - exact (call_soon_state _ _ _ H1).
    - injection H1 as <-. reflexivity.
    - injection H1 as <-. reflexivity. }
  destruct recognized; reflexivity.
Qed.

Lemma send_command_state (s : AVR) (command data : string) :
  _volume_update_state (send_command s command data) = _volume_update_state s.
Proof. unfold send_command. cbn. destruct (transport s); reflexivity. Qed.

Lemma volume_update_completed (s s' : AVR) :
  volume_update s = Ok s' ->
  _volume_update_state s = 2 -> _volume_update_state s' = 2.
Proof.
  unfold volume_update. intros H Hs.
  apply bind_Ok in H as (n & _ & H). injection H as <-.
  match goal with
  | |- context [if _volume_update_state ?x =? 1 then _ else _] =>
      assert (Hx : _volume_update_state x = 2)
  end.
  { destruct (truthy (_volume_target s)); [|exact Hs].
    destruct (_volume_target s) as [target|]; [|exact Hs].
    destruct (negb (n =? target)); [|exact Hs].
    rewrite send_command_state. exact Hs. }
  rewrite Hx. cbn. exact Hx.
Qed.

(** Once the probe is completed, decoding leaves it completed. *)
Lemma parse_message_completed (s s' : AVR) (data : string) :
  _parse_message s data = Ok s' ->
  _volume_update_state s = 2 -> _volume_update_state s' = 2.
Proof.
  unfold _parse_message. intros H Hs.
  destruct (startswith data "#11,01");
    [apply notify_state in H; rewrite H; exact Hs|].
  destruct (startswith data "#11,02");
    [apply notify_state in H; rewrite H; exact Hs|].
  destruct (startswith data "#11,03");
    [apply notify_state in H; rewrite H; exact Hs|].
  apply bind_Ok in H as ([[s1 recognized] newdata] & H1 & H).
  apply scan_lookup_state in H1.
  apply bind_Ok in H as (on & _ & H).
  apply bind_Ok in H as (s2 & H2 & H).
  assert (Hs2 : _volume_update_state s2 = 2).
  { destruct (on && negb (_poweron_refresh_successful s1)).
    - apply call_soon_state in H2. congruence.
    - injection H2 as <-. congruence. }
  destruct (startswith data ATTR_VOLUME_UP || startswith data ATTR_VOLUME_DOWN).
  - apply bind_Ok in H as (s3 & H3 & H).
    apply notify_state in H. rewrite H.
    exact (volume_update_completed _ _ H3 Hs2).
  - apply notify_state in H. congruence.
Qed.

(** The completed probe goes back to idle when [_refresh_volume] runs, and
    that run neither writes nor arms a timer. *)
Lemma refresh_volume_completed (s : AVR) (tries : Z) :
  _volume_update_state s = 2 ->
  exists s',
    _refresh_volume s tries = Ok s' /\
    _volume_update_state s' = 0 /\
    transport s' = transport s /\
    _loop s' = _loop s.
Proof.
  intros Hs. unfold _refresh_volume. rewrite Hs. cbn. rewrite Hs. cbn.
  eexists. split; [reflexivity|]. rewrite Hs. cbn. repeat split.
Qed.

(** ** Volume messages *)

Lemma startswith_app (data p : string) :
  startswith data p = true -> exists rest, data = p +:+ rest.
Proof.
  unfold startswith. revert data.
  induction p as [|c p IH]; intros data H.
  - exists data. reflexivity.
  - destruct data as [|c' data]; [discriminate|].
    cbn in H. destruct (ascii_dec c c') as [->|]; [|discriminate].
    destruct (IH _ H) as [rest ->]. exists rest. reflexivity.
Qed.

Lemma log_decoded_volume (s : AVR) (key value ci : string) :
  key = ATTR_VOLUME_UP \/ key = ATTR_VOLUME_DOWN ->
  exists r, log_decoded s key value ci = Ok (with_log s (log s ++ [r])).
Proof.
  intros [-> | ->]; unfold log_decoded; cbn;
    unfold dict_mem, dict_get;
    destruct (dict_find _ value); cbn; eexists; reflexivity.
Qed.

Lemma startswith_self (p rest : string) : startswith (p +:+ rest) p = true.
Proof.
  unfold startswith. induction p as [|c p IH].
  - destruct rest; reflexivity.
  - change (match ascii_dec c c with
            | left _ => String.prefix p (p +:+ rest)
            | right _ => false
            end = true).
    destruct (ascii_dec c c); [exact IH|congruence].
Qed.

Lemma scan_lookup_volume (s : AVR) (key rest old : string) :
  key = ATTR_VOLUME_UP \/ key = ATTR_VOLUME_DOWN ->
  getattr s "_volume" = Ok old ->
  exists r,
    scan_lookup s (key +:+ rest) (dict_keys LOOKUP) =
    Ok (setattr (with_log s (log s ++ [r])) "_volume" (slice_from 1 rest),
        true, negb (String.eqb old (slice_from 1 rest))).
Proof.
  intros Hkey Hold.
  destruct (log_decoded_volume s key (slice_from 1 rest)
              (if negb (String.eqb old (slice_from 1 rest))
               then "New Value" else "Unchanged") Hkey) as [r Hr].
  exists r.
  change (dict_keys LOOKUP)
    with (ATTR_POWER_STATE :: ATTR_MUTE_STATE :: ATTR_VOLUME_UP
            :: ATTR_VOLUME_DOWN :: skipn 4 (dict_keys LOOKUP)).
  destruct Hkey as [-> | ->]; cbn [scan_lookup].
  - change (startswith (ATTR_VOLUME_UP +:+ rest) ATTR_POWER_STATE) with false.
    change (startswith (ATTR_VOLUME_UP +:+ rest) ATTR_MUTE_STATE) with false.
    rewrite startswith_self.
    change (slice_from (String.length ATTR_VOLUME_UP + 1)
              (ATTR_VOLUME_UP +:+ rest)) with (slice_from 1 rest).
    change (_get_attribute_value s ATTR_VOLUME_UP) with (getattr s "_volume").
    rewrite Hold. cbn -[log_decoded slice_from]. rewrite Hr. reflexivity.
  - change (startswith (ATTR_VOLUME_DOWN +:+ rest) ATTR_POWER_STATE) with false.
    change (startswith (ATTR_VOLUME_DOWN +:+ rest) ATTR_MUTE_STATE) with false.
    change (startswith (ATTR_VOLUME_DOWN +:+ rest) ATTR_VOLUME_UP) with false.
    rewrite startswith_self.
    change (slice_from (String.length ATTR_VOLUME_DOWN + 1)
              (ATTR_VOLUME_DOWN +:+ rest)) with (slice_from 1 rest).
    change (_get_attribute_value s ATTR_VOLUME_DOWN) with (getattr s "_volume").
    rewrite Hold. cbn -[log_decoded slice_from]. rewrite Hr. reflexivity.
Qed.

Lemma power_after_volume (s : AVR) (lg : list LogRecord) (value : string) :
  power (setattr (with_log s lg) "_volume" value) = power s.
Proof.
  unfold power, _get_boolean, _get_attribute_value.
  change (attr_name ATTR_POWER_STATE) with (Ok (A := string) "_power_state").
  cbn [mbind Result_bind]. unfold getattr, setattr. cbn [attrs with_attrs with_log].
  rewrite lookup_insert_ne; [reflexivity|discriminate].
Qed.

Lemma get_integer_volume (s : AVR) (value : string) :
  attrs s !! "_volume" = Some value ->
  _get_integer s ATTR_VOLUME_UP =
  Ok (match parse_int value with Some n => n | None => 0 end).
Proof.
  intros H. unfold _get_integer, _get_attribute_value.
  change (attr_name ATTR_VOLUME_UP) with (Ok (A := string) "_volume").
  cbn [mbind Result_bind]. unfold getattr. rewrite H.
  unfold int_of_str. cbn [mbind Result_bind].
  destruct (parse_int value); reflexivity.
Qed.

(** What the volume update does, for the value [n] read from the store:
    one nudge towards a target that is set, not zero and not reached, the
    target cleared when it is reached, and the end of a requested probe. *)
Lemma volume_update_spec (s : AVR) (value : string) :
  attrs s !! "_volume" = Some value ->
  let n := match parse_int value with Some n => n | None => 0 end in
  exists s',
    volume_update s = Ok s' /\
    attrs s' = attrs s /\
    _loop s' = _loop s /\
    _update_callback s' = _update_callback s /\
    _volume_update_state s' =
      (if _volume_update_state s =? 1 then 2 else _volume_update_state s) /\
    _volume_target s' =
      match _volume_target s with
      | Some target =>
          if negb (target =? 0) && (n =? target) then None else Some target
      | None => None
      end /\
    (forall t, transport s = Some t ->
       sent s' =
         (sent s ++
          match _volume_target s with
          | Some target =>
              if (target =? 0) || (n =? target) then []
              else [wire (if target >? n then CMD_VOLUME_UP
                          else CMD_VOLUME_DOWN) ""]
          | None => []
          end ++
          (if _volume_update_state s =? 1 then [wire CMD_VOLUME_UP ""]
           else []))%list).
Proof.
  intros Hv n. unfold volume_update.
  rewrite (get_integer_volume s value Hv). fold n. cbn [mbind Result_bind].
  eexists. split; [reflexivity|].
  destruct s as [lo lg clc uc buf flag vus tgt tr ats]. cbn in *.
  unfold truthy.
  destruct tr as [t|];
    (destruct tgt as [target|]; [destruct (target =? 0), (n =? target)|]);
    cbn; destruct (vus =? 1); cbn;
    repeat split; try discriminate;
    try (intros t' Ht; injection Ht as <-; cbn;
         rewrite <- ?app_assoc, ?app_nil_r; reflexivity).
Qed.

Lemma schedule_if (s : AVR) (l : Loop) (c : bool) (h : Handle) :
  _loop s = Some l ->
  exists s' l',
    (if c then call_soon s h else Ok s) = Ok s' /\
    _loop s' = Some l' /\
    attrs s' = attrs s /\
    _update_callback s' = _update_callback s /\
    _volume_update_state s' = _volume_update_state s /\
    _volume_target s' = _volume_target s /\
    transport s' = transport s.
Proof.
  intros Hl. unfold call_soon. rewrite Hl.
  destruct c; eexists; eexists; (split; [reflexivity|]); cbn;
    repeat split; try reflexivity; exact Hl.
Qed.

Lemma notify_new_data (s : AVR) (l : Loop) (data : string) :
  _loop s = Some l ->
  exists s',
    notify s data true true = Ok s' /\
    attrs s' = attrs s /\
    _volume_update_state s' = _volume_update_state s /\
    _volume_target s' = _volume_target s /\
    transport s' = transport s.
Proof.
  intros Hl. unfold notify.
  destruct (schedule_if s l (_update_callback s) (H_update_callback data) Hl)
    as (s' & l' & -> & _ & Ha & _ & Hs & Ht & Htr).
  exists s'. cbn. repeat split; assumption.
Qed.

(** A message of either volume attribute, decoded: the text after the
    separator is stored as [_volume], and the volume update works on its
    integer value [n] (0 when it is no integer). *)
Lemma parse_volume_message (s : AVR) (l : Loop) (key rest : string) :
  initialised s = true ->
  _loop s = Some l ->
  key = ATTR_VOLUME_UP \/ key = ATTR_VOLUME_DOWN ->
  let value := slice_from 1 rest in
  let n := match parse_int value with Some n => n | None => 0 end in
  exists s',
    _parse_message s (key +:+ rest) = Ok s' /\
    attrs s' = <["_volume" := value]> (attrs s) /\
    _volume_update_state s' =
      (if _volume_update_state s =? 1 then 2 else _volume_update_state s) /\
    _volume_target s' =
      match _volume_target s with
      | Some target =>
          if negb (target =? 0) && (n =? target) then None else Some target
      | None => None
      end /\
    (forall t, transport s = Some t ->
       sent s' =
         (sent s ++
          match _volume_target s with
          | Some target =>
              if (target =? 0) || (n =? target) then []
              else [wire (if target >? n then CMD_VOLUME_UP
                          else CMD_VOLUME_DOWN) ""]
          | None => []
          end ++
          (if _volume_update_state s =? 1 then [wire CMD_VOLUME_UP ""]
           else []))%list).
Proof.
  intros Hi Hl Hkey value n.
  destruct (initialised_get s ATTR_VOLUME_UP Hi) as [old Hold]; [cbn; tauto|].
  change (getattr s "_volume" = Ok old) in Hold.
  destruct (scan_lookup_volume s key rest old Hkey Hold) as [r Hscan].
  destruct (power_total s Hi) as [on Hon].
  unfold _parse_message.
  assert (Hpre : startswith (key +:+ rest) "#11,01" = false /\
                 startswith (key +:+ rest) "#11,02" = false /\
                 startswith (key +:+ rest) "#11,03" = false /\
                 startswith (key +:+ rest) ATTR_VOLUME_UP
                 || startswith (key +:+ rest) ATTR_VOLUME_DOWN = true).
  { destruct Hkey as [-> | ->]; repeat split.
    - rewrite startswith_self. reflexivity.
    - rewrite (startswith_self ATTR_VOLUME_DOWN). apply orb_true_r. }
  destruct Hpre as (-> & -> & -> & ->).
  rewrite Hscan. cbn [mbind Result_bind]. fold value.
  rewrite power_after_volume, Hon. cbn [mbind Result_bind].
  set (s1 := setattr (with_log s (log s ++ [r])) "_volume" value).
  destruct (schedule_if s1 l (on && negb (_poweron_refresh_successful s1))
              H_poweron_callback Hl)
    as (s2 & l2 & -> & Hl2 & Ha2 & _ & Hs2 & Ht2 & Htr2).
  cbn [mbind Result_bind].
  assert (Hv2 : attrs s2 !! "_volume" = Some value).
  { rewrite Ha2. unfold s1, setattr. cbn [attrs with_attrs].
    apply lookup_insert_eq. }
  destruct (volume_update_spec s2 value Hv2)
    as (s3 & -> & Ha3 & Hl3 & _ & Hs3 & Ht3 & Hsent3).
  cbn [mbind Result_bind].
  rewrite Hl2 in Hl3.
  destruct (notify_new_data s3 l2 (key +:+ rest) Hl3)
    as (s4 & -> & Ha4 & Hs4 & Ht4 & Htr4).
  exists s4. split; [reflexivity|].
  split; [rewrite Ha4, Ha3, Ha2; reflexivity|].
  split; [rewrite Hs4, Hs3, Hs2; reflexivity|].
  split; [rewrite Ht4, Ht3, Ht2; reflexivity|].
  intros t Htr.
  assert (Hsent : sent s4 = sent s3) by (unfold sent; rewrite Htr4; reflexivity).
  rewrite Hsent, (Hsent3 t); [|rewrite Htr2; exact Htr].
  fold n. rewrite Ht2, Hs2.
  unfold sent at 1. rewrite Htr2. reflexivity.
Qed.

(** A target that is set and not zero is pursued: a volume message whose
    integer differs from it sends one nudge towards it and keeps it, and a
    message that reports it clears it and sends nothing (outside a probe). *)
Lemma nonzero_target_is_pursued
    (s : AVR) (l : Loop) (t : Transport) (key v : string) (n target : Z) :
  initialised s = true ->
  _loop s = Some l ->
  transport s = Some t ->
  key = ATTR_VOLUME_UP \/ key = ATTR_VOLUME_DOWN ->
  parse_int v = Some n ->
  _volume_target s = Some target ->
  target <> 0 ->
  _volume_update_state s <> 1 ->
  exists s',
    _parse_message s (key +:+ "," +:+ v) = Ok s' /\
    (n <> target ->
     _volume_target s' = Some target /\
     sent s' =
       (sent s ++
        [wire (if target >? n then CMD_VOLUME_UP else CMD_VOLUME_DOWN)
           ""])%list) /\
    (n = target -> _volume_target s' = None /\ sent s' = sent s).
Proof.
  intros Hi Hl Htr Hkey Hn Ht H0 Hs.
  destruct (parse_volume_message s l key ("," +:+ v) Hi Hl Hkey)
    as (s' & Hp & _ & _ & Ht' & Hsent).
  change (slice_from 1 ("," +:+ v)) with v in *.
  specialize (Hsent t Htr). rewrite Hn, Ht in *.
  apply Z.eqb_neq in H0, Hs. rewrite H0 in *. rewrite Hs in Hsent.
  cbn in Ht', Hsent. rewrite app_nil_r in Hsent.
  exists s'. split; [exact Hp|]. split.
  - intros Hne. apply Z.eqb_neq in Hne. rewrite Hne in *.
    split; assumption.
  - intros Heq. apply Z.eqb_eq in Heq. rewrite Heq in *.
    rewrite app_nil_r in Hsent. split; assumption.
Qed.

(** C10. Both volume prefixes name the one field [_volume]. After a message
    of either prefix with the integer text [v], reading through either
    attribute gives [v], [attenuation] and the integer read give [int(v)],
    and the convergence of the same decode has compared that integer with
    the target: the target is cleared when it is reached, and otherwise the
    one nudge goes towards it. The handler before the message is any one. *)
Theorem volume_prefixes_share_one_field
    (s : AVR) (l : Loop) (key v : string) (n : Z) :
  initialised s = true ->
  _loop s = Some l ->
  key = ATTR_VOLUME_UP \/ key = ATTR_VOLUME_DOWN ->
  parse_int v = Some n ->
  attr_name ATTR_VOLUME_UP = attr_name ATTR_VOLUME_DOWN /\
  exists s',
    _parse_message s (key +:+ "," +:+ v) = Ok s' /\
    _get_attribute_value s' ATTR_VOLUME_UP = Ok v /\
    _get_attribute_value s' ATTR_VOLUME_DOWN = Ok v /\
    attenuation s' = Ok n /\
    _get_integer s' ATTR_VOLUME_UP = Ok n /\
    _volume_target s' =
      match _volume_target s with
      | Some target =>
          if negb (target =? 0) && (n =? target) then None else Some target
      | None => None
      end /\
    (forall t, transport s = Some t ->
       sent s' =
         (sent s ++
          match _volume_target s with
          | Some target =>
              if (target =? 0) || (n =? target) then []
              else [wire (if target >? n then CMD_VOLUME_UP
                          else CMD_VOLUME_DOWN) ""]
          | None => []
          end ++
          (if _volume_update_state s =? 1 then [wire CMD_VOLUME_UP ""]
           else []))%list).
Proof.
  intros Hi Hl Hkey Hn. split; [reflexivity|].
  destruct (parse_volume_message s l key ("," +:+ v) Hi Hl Hkey)
    as (s' & Hp & Ha & _ & Ht & Hsent).
  change (slice_from 1 ("," +:+ v)) with v in *. rewrite Hn in *.
  assert (Hv : attrs s' !! "_volume" = Some v).
  { rewrite Ha. apply lookup_insert_eq. }
  assert (Hget : _get_attribute_value s' ATTR_VOLUME_UP = Ok v).
  { unfold _get_attribute_value.
    change (attr_name ATTR_VOLUME_UP) with (Ok (A := string) "_volume").
    cbn [mbind Result_bind]. unfold getattr. rewrite Hv. reflexivity. }
  exists s'. split; [exact Hp|]. split; [exact Hget|]. split; [exact Hget|].
  split.
  { unfold attenuation. rewrite Hget. cbn [mbind Result_bind].
    unfold int_of_str. rewrite Hn. reflexivity. }
  split.
  { rewrite (get_integer_volume s' v Hv), Hn. reflexivity. }
  split; assumption.
Qed.

(** C4, as the code has it. A message of either volume attribute decoded
    while the probe is requested writes the compensating Volume-Up as the
    last command of that decode (after at most one nudge towards a target),
    and the probe is completed. Decoding again leaves it completed; it goes
    back to idle when [_refresh_volume] next runs, as the armed timer makes
    it, and that run writes nothing and arms no timer. *)
Theorem probe_completes_on_volume_message
    (s : AVR) (l : Loop) (t : Transport) (data : string) :
  initialised s = true ->
  _loop s = Some l ->
  transport s = Some t ->
  _volume_update_state s = 1 ->
  startswith data ATTR_VOLUME_UP || startswith data ATTR_VOLUME_DOWN = true ->
  exists s' nudge,
    _parse_message s data = Ok s' /\
    sent s' = (sent s ++ nudge ++ [wire CMD_VOLUME_UP ""])%list /\
    (nudge = [] \/ nudge = [wire CMD_VOLUME_UP ""] \/
     nudge = [wire CMD_VOLUME_DOWN ""]) /\
    (truthy (_volume_target s) = false -> nudge = []) /\
    _volume_update_state s' = 2 /\
    (forall next s'',
        _parse_message s' next = Ok s'' -> _volume_update_state s'' = 2) /\
    (forall tries,
        exists s'',
          _refresh_volume s' tries = Ok s'' /\
          _volume_update_state s'' = 0 /\
          sent s'' = sent s' /\
          armed_timers s'' = armed_timers s').
Proof.
  intros Hi Hl Htr Hs Hdata.
  assert (Hkey : exists key rest,
             data = key +:+ rest /\
             (key = ATTR_VOLUME_UP \/ key = ATTR_VOLUME_DOWN)).
  { apply orb_true_iff in Hdata as [H | H];
      apply startswith_app in H as [rest ->]; eauto. }
  destruct Hkey as (key & rest & -> & Hkey).
  destruct (parse_volume_message s l key rest Hi Hl Hkey)
    as (s' & Hp & _ & Hs' & _ & Hsent).
  specialize (Hsent t Htr). rewrite Hs in Hs', Hsent. cbn in Hs', Hsent.
  exists s'. eexists. split; [exact Hp|]. split; [exact Hsent|].
  split.
  { destruct (_volume_target s) as [target|]; [|tauto].
    repeat match goal with
           | |- context [if ?c then _ else _] => destruct c
           end; tauto. }
  split.
  { unfold truthy. destruct (_volume_target s) as [target|]; [|reflexivity].
    destruct (target =? 0); cbn; [reflexivity|discriminate]. }
  split; [exact Hs'|].
  split.
  { intros next s'' Hn. exact (parse_message_completed _ _ _ Hn Hs'). }
  intros tries.
  destruct (refresh_volume_completed s' tries Hs') as (s'' & Hr & H0 & Ht & Hlo).
  exists s''. split; [exact Hr|]. split; [exact H0|].
  unfold sent, armed_timers. rewrite Ht, Hlo. split; reflexivity.
Qed.

(** ** The power-on probe *)

(** One run of [_refresh_volume] while the probe is requested: below ten
    tries a Volume-Down is sent and the timer is armed again, from ten on
    only the warning is logged. *)
Lemma refresh_volume_requested (s : AVR) (l : Loop) (tries : Z) :
  _loop s = Some l ->
  _volume_update_state s = 1 ->
  exists s',
    _refresh_volume s tries = Ok s' /\
    _volume_update_state s' = 1 /\
    has_transport s' = has_transport s /\
    _poweron_refresh_successful s' = _poweron_refresh_successful s /\
    if tries <? 10 then
      _loop s' =
        Some (mkLoop (ready l)
                (timers l ++ [(2, H_refresh_volume (tries + 1))])) /\
      sent s' =
        (sent s ++
         if has_transport s then [wire CMD_VOLUME_DOWN ""] else [])%list
    else
      _loop s' = Some l /\
      sent s' = sent s /\
      exists lg,
        log s' =
          (lg ++ [mkLogRecord WARNING "Refresh Volume timed out!" []])%list.
Proof.
  intros Hl Hs.
  destruct s as [lo lg clc uc buf flag vus tgt tr ats]. cbn in Hl, Hs.
  subst lo vus. unfold _refresh_volume. cbn.
  destruct (tries <? 10).
  - destruct tr as [t|]; cbn; eexists; (split; [reflexivity|]); cbn;
      repeat split.
  - cbn. eexists. split; [reflexivity|]. cbn. repeat split.
    eexists. reflexivity.
Qed.

Lemma fire_timers_none (n : nat) (s : AVR) :
  armed_timers s = [] -> fire_timers n s = Ok s.
Proof.
  unfold armed_timers. intros H. destruct n; [reflexivity|].
  cbn. unfold fire_timer. destruct (_loop s) as [l|]; [|reflexivity].
  rewrite H. reflexivity.
Qed.

(** The retries of one probe, with nothing decoded in between: the timer
    that holds try [j] fires, and so on, [n] times at most. *)
Lemma probe_retries (n : nat) :
  forall (s : AVR) (r : list Handle) (j : nat),
    (j <= 10)%nat ->
    _loop s = Some (mkLoop r [(2, H_refresh_volume (Z.of_nat j))]) ->
    _volume_update_state s = 1 ->
    exists s',
      fire_timers n s = Ok s' /\
      sent s' =
        (sent s ++
         repeat (wire CMD_VOLUME_DOWN "")
           (if has_transport s then Nat.min n (10 - j) else 0%nat))%list /\
      _volume_update_state s' = 1 /\
      _poweron_refresh_successful s' = _poweron_refresh_successful s /\
      ((10 - j < n)%nat ->
       armed_timers s' = [] /\
       exists lg,
         log s' =
           (lg ++ [mkLogRecord WARNING "Refresh Volume timed out!" []])%list).
Proof.
  induction n as [|n IH]; intros s r j Hj Hl Hs.
  - exists s. cbn. rewrite ?Nat.min_0_l.
    destruct (has_transport s); cbn; rewrite app_nil_r;
      repeat split; lia.
  - cbn [fire_timers]. unfold fire_timer. rewrite Hl. cbn [timers ready run_handle].
    set (s0 := with_loop s (Some (mkLoop r []))).
    destruct (refresh_volume_requested s0 (mkLoop r []) (Z.of_nat j)
                eq_refl Hs) as (s1 & -> & Hs1 & Htr1 & Hflag1 & H).
    cbn [mbind Result_bind].
    change (has_transport s0) with (has_transport s) in *.
    change (sent s0) with (sent s) in *.
    destruct (Z.of_nat j <? 10) eqn:Hlt.
    + apply Z.ltb_lt in Hlt. destruct H as [Hl1 Hsent1].
      cbn [ready timers app] in Hl1.
      replace (Z.of_nat j + 1) with (Z.of_nat (S j)) in Hl1 by lia.
      destruct (IH s1 r (S j) ltac:(lia) Hl1 Hs1)
        as (s' & Hf & Hsent & Hs' & Hflag & Hend).
      exists s'. split; [exact Hf|].
      split.
      { rewrite Hsent, Hsent1, Htr1.
        destruct (has_transport s); cbn [repeat]; rewrite <- app_assoc.
        - replace (Nat.min (S n) (10 - j)) with (S (Nat.min n (10 - S j)))
            by lia. reflexivity.
        - reflexivity. }
      split; [exact Hs'|].
      split; [rewrite Hflag; exact Hflag1|].
      intros Hn. apply Hend. lia.
    + apply Z.ltb_ge in Hlt. assert (j = 10%nat) as -> by lia.
      destruct H as (Hl1 & Hsent1 & Hlog1).
      assert (Hnone : armed_timers s1 = []).
      { unfold armed_timers. rewrite Hl1. reflexivity. }
      rewrite (fire_timers_none n s1 Hnone).
      exists s1. split; [reflexivity|].
      split.
      { rewrite Hsent1, Nat.min_0_r.
        destruct (has_transport s); cbn; rewrite app_nil_r; reflexivity. }
      split; [exact Hs1|].
      split; [exact Hflag1|].
      intros _. split; assumption.
Qed.

(** One chain of the power-on probe on its own, with no volume message
    decoded before it ends: the callback runs on an idle or already
    requested state with no other timer armed, and then up to [n] timers
    fire. The run never raises,
    and it has written [min (n + 1) 10] Volume-Down commands, so never more
    than ten (none without a transport). After ten timers no timer is armed
    any more, the last log record is the warning of the timeout, and the
    state is still the requested one. *)
Theorem probe_gives_up_after_ten_tries (s : AVR) (l : Loop) (n : nat) :
  _loop s = Some l ->
  timers l = [] ->
  _volume_update_state s = 0 \/ _volume_update_state s = 1 ->
  exists s' k,
    (s1 ← _poweron_callback s; fire_timers n s1) = Ok s' /\
    sent s' = (sent s ++ repeat (wire CMD_VOLUME_DOWN "") k)%list /\
    (k <= 10)%nat /\
    k = (if has_transport s then Nat.min (S n) 10 else 0%nat) /\
    _volume_update_state s' = 1 /\
    _poweron_refresh_successful s' = true /\
    ((10 <= n)%nat ->
     armed_timers s' = [] /\
     fire_timer s' = None /\
     exists lg,
       log s' =
         (lg ++ [mkLogRecord WARNING "Refresh Volume timed out!" []])%list).
Proof.
  intros Hl Ht Hs.
  unfold _poweron_callback.
  set (s0 := debug s "AVR Powered on" []).
  assert (H0 : exists s1,
             _refresh_volume s0 0 = Ok s1 /\
             _volume_update_state s1 = 1 /\
             has_transport s1 = has_transport s /\
             _loop s1 = Some (mkLoop (ready l) [(2, H_refresh_volume 1)]) /\
             sent s1 =
               (sent s ++
                if has_transport s then [wire CMD_VOLUME_DOWN ""]
                else [])%list).
  { destruct s as [lo lg clc uc buf flag vus tgt tr ats].
    destruct l as [r ts]. cbn in Hl, Ht, Hs. subst lo ts.
    unfold _refresh_volume, s0.
    destruct Hs as [-> | ->]; destruct tr as [t|]; cbn;
      eexists; (split; [reflexivity|]); cbn; rewrite ?app_nil_r;
      repeat split. }
  destruct H0 as (s1 & -> & Hs1 & Htr1 & Hl1 & Hsent1).
  cbn [mbind Result_bind].
  set (s2 := with_poweron_refresh_successful s1 true).
  destruct (probe_retries n s2 (ready l) 1 ltac:(lia) Hl1 Hs1)
    as (s' & Hf & Hsent & Hs' & Hflag & Hend).
  change (has_transport s2) with (has_transport s1) in Hsent.
  change (sent s2) with (sent s1) in Hsent.
  rewrite Htr1, Hsent1, <- app_assoc in Hsent.
  exists s'. eexists. split; [exact Hf|].
  split.
  { rewrite Hsent. f_equal.
    instantiate (1 := if has_transport s then Nat.min (S n) 10 else 0%nat).
    destruct (has_transport s); cbn [app repeat].
    - replace (Nat.min (S n) 10) with (S (Nat.min n (10 - 1))) by lia.
      reflexivity.
    - reflexivity. }
  split; [destruct (has_transport s); lia|].
  split; [reflexivity|].
  split; [exact Hs'|].
  split; [rewrite Hflag; reflexivity|].
  intros Hn. destruct Hend as [Hnone Hlog]; [lia|].
  split; [exact Hnone|]. split; [|exact Hlog].
  unfold fire_timer. unfold armed_timers in Hnone.
  destruct (_loop s') as [l'|]; [|reflexivity].
  rewrite Hnone. reflexivity.
Qed.

(** ** The theorems at work on a connection *)

Lemma accessors_fall_back_to_defaults_witness :
  _get_attribute_value just_connected ATTR_VOLUME_UP = Ok "" /\
  parse_int "" = None /\
  _get_integer just_connected ATTR_VOLUME_UP = Ok 0 /\
  _get_boolean just_connected ATTR_VOLUME_UP = Ok false /\
  attenuation just_connected = Ok (-90) /\
  volume just_connected = Ok 0.
Proof.
  assert (Hget : _get_attribute_value just_connected ATTR_VOLUME_UP = Ok "")
    by (vm_compute; reflexivity).
  assert (Hparse : parse_int "" = None) by reflexivity.
  destruct (accessors_fall_back_to_defaults just_connected ATTR_VOLUME_UP ""
              Hget Hparse) as (_ & Hint & Hbool & _ & _ & _ & Hvol).
  destruct (Hvol eq_refl) as [Hatt Hv].
  repeat split; assumption.
Defined.

Lemma unknown_message_changes_nothing_witness :
  initialised just_connected = true /\
  _loop just_connected = Some (mkLoop [] []) /\
  forallb (fun p => negb (startswith "#99,99,x" p))
    (["#11,01"; "#11,02"; "#11,03"] ++ dict_keys LOOKUP) = true /\
  exists s',
    _parse_message just_connected "#99,99,x" = Ok s' /\
    attrs s' = attrs just_connected /\
    (ready_handles s' = ready_handles just_connected \/
     ready_handles s' =
       (ready_handles just_connected ++ [H_poweron_callback])%list) /\
    armed_timers s' = armed_timers just_connected /\
    transport s' = transport just_connected /\
    _volume_target s' = _volume_target just_connected /\
    _volume_update_state s' = _volume_update_state just_connected.
Proof.
  assert (Hi : initialised just_connected = true)
    by (vm_compute; reflexivity).
  assert (Hl : _loop just_connected = Some (mkLoop [] []))
    by (vm_compute; reflexivity).
  assert (Hp : forallb (fun p => negb (startswith "#99,99,x" p))
                 (["#11,01"; "#11,02"; "#11,03"] ++ dict_keys LOOKUP) = true)
    by (vm_compute; reflexivity).
  split; [exact Hi|]. split; [exact Hl|]. split; [exact Hp|].
  exact (unknown_message_changes_nothing just_connected (mkLoop [] [])
           "#99,99,x" Hi Hl Hp).
Defined.

Lemma volume_prefixes_share_one_field_witness :
  initialised just_connected = true /\
  _loop just_connected = Some (mkLoop [] []) /\
  parse_int "-42" = Some (-42) /\
  exists s',
    _parse_message just_connected (ATTR_VOLUME_DOWN +:+ "," +:+ "-42")
      = Ok s' /\
    _get_attribute_value s' ATTR_VOLUME_UP = Ok "-42" /\
    _get_attribute_value s' ATTR_VOLUME_DOWN = Ok "-42" /\
    attenuation s' = Ok (-42) /\
    _get_integer s' ATTR_VOLUME_UP = Ok (-42).
Proof.
  assert (Hi : initialised just_connected = true)
    by (vm_compute; reflexivity).
  assert (Hl : _loop just_connected = Some (mkLoop [] []))
    by (vm_compute; reflexivity).
  assert (Hn : parse_int "-42" = Some (-42)) by reflexivity.
  split; [exact Hi|]. split; [exact Hl|]. split; [exact Hn|].
  destruct (volume_prefixes_share_one_field just_connected (mkLoop [] [])
              ATTR_VOLUME_DOWN "-42" (-42) Hi Hl (or_intror eq_refl) Hn)
    as (_ & s' & Hp & Hu & Hd & Ha & Hg & _).
  exists s'. repeat split; assumption.
Defined.

Lemma probe_completes_on_volume_message_witness :
  initialised probing = true /\
  _loop probing = Some (mkLoop [] [(2, H_refresh_volume 1)]) /\
  transport probing =
    Some (mkTransport [wire CMD_VOLUME_DOWN ""] false (16384, 65536)) /\
  _volume_update_state probing = 1 /\
  startswith "#6,02,-30" ATTR_VOLUME_UP
  || startswith "#6,02,-30" ATTR_VOLUME_DOWN = true /\
  exists s' nudge,
    _parse_message probing "#6,02,-30" = Ok s' /\
    sent s' = (sent probing ++ nudge ++ [wire CMD_VOLUME_UP ""])%list /\
    nudge = [] /\
    _volume_update_state s' = 2 /\
    (forall next s'',
        _parse_message s' next = Ok s'' -> _volume_update_state s'' = 2) /\
    (forall tries,
        exists s'',
          _refresh_volume s' tries = Ok s'' /\
          _volume_update_state s'' = 0 /\
          sent s'' = sent s' /\
          armed_timers s'' = armed_timers s').
Proof.
  assert (Hi : initialised probing = true) by (vm_compute; reflexivity).
  assert (Hl : _loop probing = Some (mkLoop [] [(2, H_refresh_volume 1)]))
    by (vm_compute; reflexivity).
  assert (Ht : transport probing =
               Some (mkTransport [wire CMD_VOLUME_DOWN ""] false
                       (16384, 65536)))
    by (vm_compute; reflexivity).
  assert (Hs : _volume_update_state probing = 1) by (vm_compute; reflexivity).
  assert (Hd : startswith "#6,02,-30" ATTR_VOLUME_UP
               || startswith "#6,02,-30" ATTR_VOLUME_DOWN = true)
    by reflexivity.
  split; [exact Hi|]. split; [exact Hl|]. split; [exact Ht|].
  split; [exact Hs|]. split; [exact Hd|].
  destruct (probe_completes_on_volume_message probing _ _ "#6,02,-30"
              Hi Hl Ht Hs Hd)
    as (s' & nudge & Hp & Hsent & _ & Hnone & Hs' & Hnext & Hfire).
  exists s', nudge. split; [exact Hp|]. split; [exact Hsent|].
  split; [apply Hnone; vm_compute; reflexivity|].
  split; [exact Hs'|]. split; [exact Hnext|]. exact Hfire.
Defined.

Lemma probe_gives_up_after_ten_tries_witness :
  _loop just_connected = Some (mkLoop [] []) /\
  timers (mkLoop [] []) = [] /\
  _volume_update_state just_connected = 0 /\
  exists s',
    (s1 ← _poweron_callback just_connected; fire_timers 12 s1) = Ok s' /\
    sent s' = repeat (wire CMD_VOLUME_DOWN "") 10 /\
    _volume_update_state s' = 1 /\
    _poweron_refresh_successful s' = true /\
    armed_timers s' = [] /\
    fire_timer s' = None /\
    exists lg,
      log s' =
        (lg ++ [mkLogRecord WARNING "Refresh Volume timed out!" []])%list.
Proof.
  assert (Hl : _loop just_connected = Some (mkLoop [] []))
    by (vm_compute; reflexivity).
  assert (Hs : _volume_update_state just_connected = 0)
    by (vm_compute; reflexivity).
  split; [exact Hl|]. split; [reflexivity|]. split; [exact Hs|].
  destruct (probe_gives_up_after_ten_tries just_connected (mkLoop [] [])
              12 Hl eq_refl (or_introl Hs))
    as (s' & k & Hrun & Hsent & _ & Hk & Hs' & Hflag & Hend).
  destruct Hend as (Hnone & Hfire & Hlog); [lia|].
  exists s'. split; [exact Hrun|].
  split; [rewrite Hsent, Hk; vm_compute; reflexivity|].
  repeat split; assumption.
Defined.

(** ** What the code does where the specification asks for more *)

(** C1. A message that arrives in two chunks is decoded twice, in two
    parts. After ["#6,01,"] the buffer is empty again and the fragment has
    been decoded as a power state with the empty value; the rest ["1"] is
    then decoded on its own and matches no prefix. Power stays off and no
    update is scheduled, where the same bytes in one chunk turn power on. *)
Theorem fragment_is_decoded_before_its_terminator :
  (s ← feed ["#6,01,"];
   Ok (buffer s, assembled s, getattr s "_power_state")) =
    Ok ("", [[LStr "#6,01,"]], Ok "") /\
  (s ← feed ["#6,01,"; line "1"];
   Ok (assembled s, getattr s "_power_state", power s, ready_handles s)) =
    Ok ([[LStr "#6,01,"]; [LStr "1"]], Ok "", Ok false, []) /\
  (s ← feed [line "#6,01,1"];
   Ok (assembled s, getattr s "_power_state", power s)) =
    Ok ([[LStr "#6,01,1"]], Ok "1", Ok true).
Proof. vm_compute. repeat split. Qed.

(** C2. The target 0 is stored and the first nudge is sent, but the volume
    update takes a target of 0 for no target: with the attenuation at -10
    and the target set to 0, the message that reports -9 sends no further
    Volume-Up, and the message that reports 0 does not clear the target.
    With the target -8 the same messages send the second nudge and clear
    the target. *)
Theorem target_zero_is_not_pursued :
  (s ← feed [line "#6,02,-10"];
   s1 ← set_attenuation s (PyInt 0);
   s2 ← data_received s1 (line "#6,02,-9");
   s3 ← data_received s2 (line "#6,02,0");
   Ok (attenuation s, (_volume_target s1, sent s1),
       (attenuation s2, _volume_target s2, sent s2),
       (attenuation s3, _volume_target s3, sent s3))) =
    Ok (Ok (-10), (Some 0, [wire CMD_VOLUME_UP ""]),
        (Ok (-9), Some 0, [wire CMD_VOLUME_UP ""]),
        (Ok 0, Some 0, [wire CMD_VOLUME_UP ""])) /\
  (s ← feed [line "#6,02,-10"];
   s1 ← set_attenuation s (PyInt (-8));
   s2 ← data_received s1 (line "#6,02,-9");
   s3 ← data_received s2 (line "#6,02,-8");
   Ok (attenuation s, (_volume_target s1, sent s1),
       (attenuation s2, _volume_target s2, sent s2),
       (attenuation s3, _volume_target s3, sent s3))) =
    Ok (Ok (-10), (Some (-8), [wire CMD_VOLUME_UP ""]),
        (Ok (-9), Some (-8), [wire CMD_VOLUME_UP ""; wire CMD_VOLUME_UP ""]),
        (Ok (-8), None, [wire CMD_VOLUME_UP ""; wire CMD_VOLUME_UP ""])).
Proof. vm_compute. repeat split. Qed.

(** C3. Two messages in one chunk, the first of them power on: the flag is
    set only when the callback runs, so the second message schedules the
    power-on callback again. The loop then runs both: two Volume-Down
    commands are written and two retry timers are armed. *)
Theorem one_chunk_schedules_the_probe_twice :
  (s ← feed [line "#6,01,1" +:+ line "#6,11,00"];
   Ok (ready_handles s, _poweron_refresh_successful s)) =
    Ok ([H_poweron_callback; H_update_callback "#6,01,1";
         H_poweron_callback; H_update_callback "#6,11,00"], false) /\
  (s ← feed [line "#6,01,1" +:+ line "#6,11,00"];
   s ← run_once s;
   Ok (sent s, armed_timers s, _poweron_refresh_successful s)) =
    Ok ([wire CMD_VOLUME_DOWN ""; wire CMD_VOLUME_DOWN ""],
        [(2, H_refresh_volume 1); (2, H_refresh_volume 1)], true).
Proof. vm_compute. repeat split. Qed.

(** C5. Two chains of the probe side by side. After the chunk of two
    messages, the first of them power on, the loop runs the power-on
    callback twice, and each run starts a chain of retries with a count of
    its own. No volume message is decoded, the timers fire until none is
    left, and nothing raises; twenty Volume-Down commands have been written
    before both chains give up with their warning, not ten. Scheduled once,
    as after the chunk with the first message alone, the probe writes
    ten. *)
Theorem two_chains_write_twenty_volume_downs :
  (s ← (s ← feed [line "#6,01,1" +:+ line "#6,11,00"];
        s ← run_once s;
        fire_timers 25 s);
   Ok (assembled s, sent s, armed_timers s, _volume_update_state s,
       map msg
         (List.filter
            (fun r => match level r with WARNING => true | _ => false end)
            (log s)))) =
    Ok ([[LStr "#6,01,1"]; [LStr "#6,11,00"]],
        repeat (wire CMD_VOLUME_DOWN "") 20, [], 1,
        ["Refresh Volume timed out!"; "Refresh Volume timed out!"]) /\
  ~ (exists s,
        (s ← feed [line "#6,01,1" +:+ line "#6,11,00"];
         s ← run_once s;
         fire_timers 25 s) = Ok s /\
        (length (sent s) <= 10)%nat) /\
  (s ← (s ← feed [line "#6,01,1"];
        s ← run_once s;
        fire_timers 25 s);
   Ok (assembled s, sent s, armed_timers s, _volume_update_state s,
       map msg
         (List.filter
            (fun r => match level r with WARNING => true | _ => false end)
            (log s)))) =
    Ok ([[LStr "#6,01,1"]],
        repeat (wire CMD_VOLUME_DOWN "") 10, [], 1,
        ["Refresh Volume timed out!"]).
Proof.
  assert (H : (s ← (s ← feed [line "#6,01,1" +:+ line "#6,11,00"];
                    s ← run_once s;
                    fire_timers 25 s);
               Ok (length (sent s))) = Ok 20%nat)
    by (vm_compute; reflexivity).
  split; [vm_compute; reflexivity|].
  split; [|vm_compute; reflexivity].
  intros (s & Hs & Hle).
  rewrite Hs in H. cbn [mbind Result_bind] in H.
  injection H as H. lia.
Qed.

(** C4, as stated, fails: on the handler whose probe is requested, the
    volume message writes the compensating Volume-Up and completes the
    probe, and the next decode cycle leaves the state at 2, not at 0; it is
    the retry timer that brings it to 0. *)
Lemma probe_is_not_reset_by_the_next_decode :
  (s1 ← data_received probing (line "#6,02,-30");
   s2 ← data_received s1 (line "#6,02,-30");
   Ok (_volume_update_state probing, sent probing,
       (_volume_update_state s1, sent s1),
       (_volume_update_state s2, sent s2))) =
    Ok (1, [wire CMD_VOLUME_DOWN ""],
        (2, [wire CMD_VOLUME_DOWN ""; wire CMD_VOLUME_UP ""]),
        (2, [wire CMD_VOLUME_DOWN ""; wire CMD_VOLUME_UP ""])) /\
  ~ (exists s1 s2,
        data_received probing (line "#6,02,-30") = Ok s1 /\
        data_received s1 (line "#6,02,-30") = Ok s2 /\
        _volume_update_state s2 = 0) /\
  (s1 ← data_received probing (line "#6,02,-30");
   s2 ← data_received s1 (line "#6,02,-30");
   match fire_timer s2 with
   | Some r => s3 ← r; Ok (Some (_volume_update_state s3, sent s3))
   | None => Ok None
   end) =
    Ok (Some (0, [wire CMD_VOLUME_DOWN ""; wire CMD_VOLUME_UP ""])).
Proof.
  assert (H : (s1 ← data_received probing (line "#6,02,-30");
               s2 ← data_received s1 (line "#6,02,-30");
               Ok (_volume_update_state s2)) = Ok 2)
    by (vm_compute; reflexivity).
  split; [vm_compute; reflexivity|].
  split; [|vm_compute; reflexivity].
  intros (s1 & s2 & H1 & H2 & H0).
  rewrite H1 in H. cbn [mbind Result_bind] in H.
  rewrite H2 in H. cbn [mbind Result_bind] in H.
  rewrite H0 in H. discriminate H.
Qed.

(** * More properties of the handler *)

(** ** The catalog *)

Lemma attr_name_catalog (key : string) :
  In key (dict_keys LOOKUP) -> exists name, attr_name key = Ok name.
Proof.
  cbn. intros H.
  repeat (destruct H as [<- | H]; [eexists; reflexivity|]).
  destruct H.
Qed.

Lemma log_decoded_catalog (s : AVR) (key value ci : string) :
  In key (dict_keys LOOKUP) ->
  exists r, log_decoded s key value ci = Ok (with_log s (log s ++ [r])).
Proof.
  cbn. intros H.
  repeat (destruct H as [<- | H];
          [unfold log_decoded; cbn; unfold dict_mem, dict_get;
           destruct (dict_find _ value); cbn; eexists; reflexivity|]).
  destruct H.
Qed.

(** No prefix of the catalog starts another one, and none starts with an
    error prefix: the first match of the decoder is the only match. *)
Lemma catalog_prefix_unique (key key' rest : string) :
  In key (dict_keys LOOKUP) ->
  In key' (dict_keys LOOKUP) ->
  startswith (key +:+ rest) key' = true ->
  key' = key.
Proof.
  cbn. intros H H' Hs.
  repeat (destruct H as [<- | H]); try destruct H;
    repeat (destruct H' as [<- | H']); try destruct H';
    try reflexivity; vm_compute in Hs; discriminate Hs.
Qed.

Lemma catalog_prefix_no_error (key rest : string) :
  In key (dict_keys LOOKUP) ->
  startswith (key +:+ rest) "#11,01" = false /\
  startswith (key +:+ rest) "#11,02" = false /\
  startswith (key +:+ rest) "#11,03" = false.
Proof.
  cbn. intros H.
  repeat (destruct H as [<- | H]; [repeat split|]).
  destruct H.
Qed.

(** ** A decode on a handler in working order *)

Lemma operational_parts (s : AVR) :
  operational s = true ->
  initialised s = true /\
  (exists l, _loop s = Some l) /\
  (exists t, transport s = Some t).
Proof.
  unfold operational, has_transport. intros H.
  apply andb_true_iff in H as [H Ht]. apply andb_true_iff in H as [Hi Hl].
  split; [exact Hi|]. split.
  - destruct (_loop s) as [l|]; [eauto|discriminate].
  - destruct (transport s) as [t|]; [eauto|discriminate].
Qed.

Lemma operational_intro (s : AVR) (l : Loop) (t : Transport) :
  initialised s = true -> _loop s = Some l -> transport s = Some t ->
  operational s = true.
Proof.
  intros Hi Hl Ht. unfold operational, has_transport.
  rewrite Hi, Hl, Ht. reflexivity.
Qed.

Lemma initialised_setattr (s : AVR) (name value : string) :
  initialised s = true -> initialised (setattr s name value) = true.
Proof.
  unfold initialised. rewrite !forallb_forall. intros H key Hin.
  specialize (H key Hin). unfold _get_attribute_value in *.
  destruct (attr_name key) as [n|]; [|exact H].
  cbn [mbind Result_bind] in *. unfold getattr, setattr in *.
  cbn [attrs with_attrs].
  destruct (decide (name = n)) as [->|Hne].
  - rewrite lookup_insert_eq. reflexivity.
  - rewrite lookup_insert_ne by exact Hne. exact H.
Qed.

Lemma slice_from_app (p rest : string) (n : nat) :
  slice_from (String.length p + n) (p +:+ rest) = slice_from n rest.
Proof. induction p as [|c p IH]; [reflexivity|exact IH]. Qed.

(** The scan of the catalog on any message: no key matches and nothing
    happens, or the first key that matches has its attribute set to the text
    after the separator. *)
Lemma scan_lookup_cases (keys : list string) (s : AVR) (data : string) :
  (forall k, In k keys -> In k (dict_keys LOOKUP)) ->
  initialised s = true ->
  (scan_lookup s data keys = Ok (s, false, false) /\
   forall k, In k keys -> startswith data k = false) \/
  exists key name old r,
    In key keys /\
    startswith data key = true /\
    attr_name key = Ok name /\
    getattr s name = Ok old /\
    scan_lookup s data keys =
      Ok (setattr (with_log s (log s ++ [r])) name
            (slice_from (String.length key + 1) data),
          true,
          negb (String.eqb old (slice_from (String.length key + 1) data))).
Proof.
  intros Hsub Hi. induction keys as [|k keys IH].
  - left. split; [reflexivity|]. intros k [].
  - cbn [scan_lookup]. destruct (startswith data k) eqn:Hk.
    + right.
      assert (Hin : In k (dict_keys LOOKUP)) by (apply Hsub; left; reflexivity).
      destruct (attr_name_catalog k Hin) as [name Hname].
      destruct (initialised_get s k Hi Hin) as [old Hold].
      destruct (log_decoded_catalog s k
                  (slice_from (String.length k + 1) data)
                  (if negb (String.eqb old
                              (slice_from (String.length k + 1) data))
                   then "New Value" else "Unchanged") Hin) as [r Hr].
      exists k, name, old, r.
      split; [left; reflexivity|]. split; [exact Hk|].
      split; [exact Hname|].
      assert (Hget : getattr s name = Ok old).
      { unfold _get_attribute_value in Hold. rewrite Hname in Hold.
        exact Hold. }
      split; [exact Hget|].
      rewrite Hold. cbn [mbind Result_bind]. rewrite Hr.
      cbn [mbind Result_bind]. unfold _set_attribute_value.
      rewrite Hname. reflexivity.
    + destruct IH as [[Hscan Hnone] | (key & name & old & r & Hin & H)].
      * intros k' Hk'. apply Hsub. right. exact Hk'.
      * left. split; [exact Hscan|].
        intros k' [<- | Hk']; [exact Hk|exact (Hnone k' Hk')].
      * right. exists key, name, old, r.
        split; [right; exact Hin|exact H].
Qed.

Lemma get_integer_total (s : AVR) :
  initialised s = true -> exists n, _get_integer s ATTR_VOLUME_UP = Ok n.
Proof.
  intros Hi.
  destruct (initialised_get s ATTR_VOLUME_UP Hi) as [v Hv]; [cbn; tauto|].
  unfold _get_integer. rewrite Hv. cbn [mbind Result_bind].
  unfold int_of_str. destruct (parse_int v); cbn; eauto.
Qed.

(** What follows the scan in [_parse_message], on a handler in working
    order: it returns, the handler stays in working order, the ready queue
    gains the power-on callback when the power is on and the flag is unset
    and the update callback when one was supplied and there is new data, no
    timer is armed, and what is written are volume steps, two at most. *)
Lemma decode_after_scan (s : AVR) (data : string) (recognized newdata : bool) :
  operational s = true ->
  exists (on : bool) (cmds : list string) (s' : AVR),
    (on ← power s;
     self ← (if on && negb (_poweron_refresh_successful s)
             then call_soon s H_poweron_callback
             else Ok s);
     if startswith data ATTR_VOLUME_UP || startswith data ATTR_VOLUME_DOWN
     then self ← volume_update self; notify self data true true
     else notify self data recognized newdata) = Ok s' /\
    operational s' = true /\
    attrs s' = attrs s /\
    buffer s' = buffer s /\
    _poweron_refresh_successful s' = _poweron_refresh_successful s /\
    _update_callback s' = _update_callback s /\
    _connection_lost_callback s' = _connection_lost_callback s /\
    option_map reading_paused (transport s') =
      option_map reading_paused (transport s) /\
    power s' = Ok on /\
    ready_handles s' =
      (ready_handles s ++
       (if on && negb (_poweron_refresh_successful s)
        then [H_poweron_callback] else []) ++
       (if _update_callback s
           && (startswith data ATTR_VOLUME_UP
               || startswith data ATTR_VOLUME_DOWN || newdata)
        then [H_update_callback data] else []))%list /\
    armed_timers s' = armed_timers s /\
    sent s' = (sent s ++ cmds)%list /\
    forallb is_nudge cmds = true /\
    (length cmds <= 2)%nat /\
    (startswith data ATTR_VOLUME_UP || startswith data ATTR_VOLUME_DOWN
       = false -> cmds = []) /\
    (_volume_target s' = _volume_target s \/ _volume_target s' = None) /\
    (_volume_update_state s' = _volume_update_state s \/
     _volume_update_state s = 1 /\ _volume_update_state s' = 2).
Proof.
  intros Hop. destruct (operational_parts s Hop) as (Hi & [l Hl] & [t Ht]).
  destruct (power_total s Hi) as [on Hon].
  destruct (get_integer_total s Hi) as [n Hn].
  exists on.
  exists (if startswith data ATTR_VOLUME_UP || startswith data ATTR_VOLUME_DOWN
          then
            (match _volume_target s with
             | Some target =>
                 if (target =? 0) || (n =? target) then []
                 else [wire (if target >? n then CMD_VOLUME_UP
                             else CMD_VOLUME_DOWN) ""]
             | None => []
             end ++
             (if _volume_update_state s =? 1 then [wire CMD_VOLUME_UP ""]
              else []))%list
          else []).
  rewrite Hon. cbn [mbind Result_bind]. unfold call_soon. rewrite Hl.
  destruct on, (_poweron_refresh_successful s) eqn:Hf;
    cbn [andb negb mbind Result_bind];
    (destruct (startswith data ATTR_VOLUME_UP
               || startswith data ATTR_VOLUME_DOWN);
     cbn [mbind Result_bind];
     [unfold volume_update;
      match goal with
      | |- context [_get_integer ?x ATTR_VOLUME_UP] =>
          change (_get_integer x ATTR_VOLUME_UP)
            with (_get_integer s ATTR_VOLUME_UP)
      end;
      rewrite Hn; cbn [mbind Result_bind];
      unfold notify, call_soon, truthy;
      destruct s as [lo lg clc uc buf flag vus tgt tr ats];
      cbn in Hl, Ht, Hf; subst lo tr flag;
      (destruct tgt as [target|]; cbn;
       [destruct (target =? 0); cbn;
        [|destruct (n =? target); cbn; [|destruct (target >? n); cbn]]|]);
      destruct (vus =? 1) eqn:Hvus; cbn; destruct uc
     |unfold notify, call_soon;
      destruct s as [lo lg clc uc buf flag vus tgt tr ats];
      cbn in Hl, Ht, Hf; subst lo tr flag;
      destruct newdata, uc, recognized]).
  all: cbn; eexists; (split; [reflexivity|]).
  all: split; [eapply operational_intro; [exact Hi|reflexivity|reflexivity]|].
  all: cbn; repeat split; try reflexivity; try exact Hon; try congruence;
    try lia.
  all: try (rewrite ?app_nil_r, <- ?app_assoc; reflexivity).
  all: try (first [left; reflexivity | right; reflexivity]).
  all: try (right; split; [apply Z.eqb_eq; exact Hvus | reflexivity]).
Qed.

Lemma startswith_split (data p : string) :
  startswith data p = true -> data = p +:+ slice_from (String.length p) data.
Proof.
  unfold startswith. revert data.
  induction p as [|c p IH]; intros data H; [reflexivity|].
  destruct data as [|d data]; [discriminate H|].
  cbn in H. destruct (ascii_dec c d) as [->|]; [|discriminate H].
  change (String d data = String d (p +:+ slice_from (String.length p) data)).
  f_equal. exact (IH data H).
Qed.

Lemma catalog_key_is_no_error (data key : string) :
  In key (dict_keys LOOKUP) ->
  startswith data key = true ->
  startswith data "#11,01" = false /\
  startswith data "#11,02" = false /\
  startswith data "#11,03" = false.
Proof.
  intros Hin Hs. rewrite (startswith_split data key Hs).
  exact (catalog_prefix_no_error key _ Hin).
Qed.

Lemma catalog_first_match (data key key' : string) :
  In key (dict_keys LOOKUP) ->
  In key' (dict_keys LOOKUP) ->
  startswith data key = true ->
  startswith data key' = true ->
  key' = key.
Proof.
  intros Hin Hin' Hs Hs'. rewrite (startswith_split data key Hs) in Hs'.
  exact (catalog_prefix_unique key key' _ Hin Hin' Hs').
Qed.

(** An error answer of the device: two log lines, and nothing else. *)
Lemma parse_error_message (s : AVR) (data : string) :
  startswith data "#11,01" || startswith data "#11,02"
    || startswith data "#11,03" = true ->
  exists m,
    _parse_message s data =
      Ok (debug (warning s m []) "No new data encountered" []).
Proof.
  intros H. unfold _parse_message.
  destruct (startswith data "#11,01"); [eexists; reflexivity|].
  destruct (startswith data "#11,02"); [eexists; reflexivity|].
  destruct (startswith data "#11,03"); [eexists; reflexivity|].
  discriminate H.
Qed.

(** One decode on a handler in working order: what it returns and what it
    leaves as it was. [p] and [u] tell whether the power-on callback and the
    update callback were scheduled, [cmds] is what was written. *)
Lemma parse_message_spec (s : AVR) (data : string) :
  operational s = true ->
  exists (p u : bool) (cmds : list string) (s' : AVR),
    _parse_message s data = Ok s' /\
    operational s' = true /\
    buffer s' = buffer s /\
    _poweron_refresh_successful s' = _poweron_refresh_successful s /\
    _update_callback s' = _update_callback s /\
    _connection_lost_callback s' = _connection_lost_callback s /\
    option_map reading_paused (transport s') =
      option_map reading_paused (transport s) /\
    ready_handles s' =
      (ready_handles s ++ (if p then [H_poweron_callback] else []) ++
       (if u then [H_update_callback data] else []))%list /\
    armed_timers s' = armed_timers s /\
    sent s' = (sent s ++ cmds)%list /\
    forallb is_nudge cmds = true /\
    (length cmds <= 2)%nat /\
    (startswith data ATTR_VOLUME_UP || startswith data ATTR_VOLUME_DOWN
       = false -> cmds = []) /\
    (_volume_target s' = _volume_target s \/ _volume_target s' = None) /\
    (_volume_update_state s' = _volume_update_state s \/
     _volume_update_state s = 1 /\ _volume_update_state s' = 2) /\
    (_poweron_refresh_successful s = true -> p = false) /\
    (p = true -> power s' = Ok true) /\
    (_update_callback s = false -> u = false) /\
    ((forall k, In k (dict_keys LOOKUP) -> startswith data k = false) ->
     attrs s' = attrs s /\ u = false /\ cmds = []) /\
    (forall key name,
       In key (dict_keys LOOKUP) -> startswith data key = true ->
       attr_name key = Ok name ->
       exists old on,
         getattr s name = Ok old /\
         attrs s' =
           <[name := slice_from (String.length key + 1) data]> (attrs s) /\
         power s' = Ok on /\
         p = on && negb (_poweron_refresh_successful s) /\
         u = _update_callback s
             && (startswith data ATTR_VOLUME_UP
                 || startswith data ATTR_VOLUME_DOWN
                 || negb (String.eqb old
                            (slice_from (String.length key + 1) data)))).
Proof.
  intros Hop. destruct (operational_parts s Hop) as (Hi & [l Hl] & [t Ht]).
  destruct (startswith data "#11,01" || startswith data "#11,02"
            || startswith data "#11,03") eqn:He.
  - destruct (parse_error_message s data He) as [m Hm].
    exists false, false, [],
      (debug (warning s m []) "No new data encountered" []).
    split; [exact Hm|].
    split; [exact (operational_intro _ l t Hi Hl Ht)|].
    unfold ready_handles, armed_timers, sent. cbn. rewrite Hl, Ht.
    rewrite !app_nil_r.
    repeat match goal with |- _ /\ _ => split end;
      try reflexivity; try (left; reflexivity); try congruence; try lia.
    + intros _. repeat split.
    + intros key name Hin Hs _.
      destruct (catalog_key_is_no_error data key Hin Hs) as (H1 & H2 & H3).
      rewrite H1, H2, H3 in He. discriminate He.
  - apply orb_false_iff in He as [He H3].
    apply orb_false_iff in He as [H1 H2].
    unfold _parse_message. rewrite H1, H2, H3.
    destruct (scan_lookup_cases (dict_keys LOOKUP) s data (fun k H => H) Hi)
      as [[Hscan Hnone]
         | (key0 & name0 & old0 & r & Hin0 & Hs0 & Hname0 & Hget0 & Hscan)].
    + rewrite Hscan. cbn [mbind Result_bind].
      destruct (decode_after_scan s data false false Hop)
        as (on & cmds & s' & Hrun & Hop' & Hat & Hbuf & Hflag & Huc & Hclc
            & Hrp & Hpow & Hready & Htim & Hsent & Hnudge & Hlen & Hnovol & Htgt
            & Hvus).
      assert (Hvol : startswith data ATTR_VOLUME_UP
                     || startswith data ATTR_VOLUME_DOWN = false).
      { rewrite (Hnone ATTR_VOLUME_UP), (Hnone ATTR_VOLUME_DOWN);
          [reflexivity | cbn; tauto | cbn; tauto]. }
      rewrite Hvol, andb_false_r in Hready.
      exists (on && negb (_poweron_refresh_successful s)), false, cmds, s'.
      repeat match goal with |- _ /\ _ => split end;
        try assumption.
      * intros ->. apply andb_false_r.
      * intros Hp. apply andb_true_iff in Hp as [-> _]. exact Hpow.
      * reflexivity.
      * intros _. split; [exact Hat|]. split; [reflexivity|].
        exact (Hnovol Hvol).
      * intros key name Hin Hs _. rewrite (Hnone key Hin) in Hs.
        discriminate Hs.
    + rewrite Hscan. cbn [mbind Result_bind].
      set (value := slice_from (String.length key0 + 1) data) in *.
      set (s1 := setattr (with_log s (log s ++ [r])) name0 value) in *.
      assert (Hop1 : operational s1 = true).
      { apply (operational_intro s1 l t);
          [apply initialised_setattr; exact Hi | exact Hl | exact Ht]. }
      destruct (decode_after_scan s1 data true
                  (negb (String.eqb old0 value)) Hop1)
        as (on & cmds & s' & Hrun & Hop' & Hat & Hbuf & Hflag & Huc & Hclc
            & Hrp & Hpow & Hready & Htim & Hsent & Hnudge & Hlen & Hnovol & Htgt
            & Hvus).
      exists (on && negb (_poweron_refresh_successful s)),
        (_update_callback s
         && (startswith data ATTR_VOLUME_UP || startswith data ATTR_VOLUME_DOWN
             || negb (String.eqb old0 value))),
        cmds, s'.
      repeat match goal with |- _ /\ _ => split end;
        try assumption.
      * intros ->. apply andb_false_r.
      * intros Hp. apply andb_true_iff in Hp as [-> _]. exact Hpow.
      * intros ->. reflexivity.
      * intros Hnone. rewrite (Hnone key0 Hin0) in Hs0. discriminate Hs0.
      * intros key name Hin Hs Hname.
        assert (Hk : key0 = key)
          by exact (catalog_first_match data key key0 Hin Hin0 Hs Hs0).
        subst key0. rewrite Hname in Hname0.
        injection Hname0 as <-.
        exists old0, on. repeat split; try assumption; reflexivity.
Qed.

(** ** A chunk of bytes on a handler in working order *)

Lemma operational_debug (s : AVR) (m : string) (a : list LogArg) :
  operational s = true -> operational (debug s m a) = true.
Proof.
  intros Hop. destruct (operational_parts s Hop) as (Hi & [l Hl] & [t Ht]).
  exact (operational_intro (debug s m a) l t Hi Hl Ht).
Qed.

Lemma target_in_range_kept (s s' : AVR) :
  _volume_target s' = _volume_target s \/ _volume_target s' = None ->
  target_in_range s = true -> target_in_range s' = true.
Proof.
  unfold target_in_range. intros [-> | ->]; [tauto|reflexivity].
Qed.

(** The messages of a chunk, decoded one after the other. [hs] is what the
    ready queue gains and [cmds] what is written. *)
Lemma parse_messages_spec (msgs : list string) (s : AVR) :
  operational s = true ->
  exists (hs : list Handle) (cmds : list string) (s' : AVR),
    parse_messages s msgs = Ok s' /\
    operational s' = true /\
    buffer s' = buffer s /\
    _poweron_refresh_successful s' = _poweron_refresh_successful s /\
    _update_callback s' = _update_callback s /\
    _connection_lost_callback s' = _connection_lost_callback s /\
    option_map reading_paused (transport s') =
      option_map reading_paused (transport s) /\
    ready_handles s' = (ready_handles s ++ hs)%list /\
    armed_timers s' = armed_timers s /\
    sent s' = (sent s ++ cmds)%list /\
    forallb is_nudge cmds = true /\
    (target_in_range s = true -> target_in_range s' = true) /\
    (_poweron_refresh_successful s = true -> ~ In H_poweron_callback hs) /\
    (_update_callback s = false ->
     forall d, ~ In (H_update_callback d) hs) /\
    (forall h, In h hs ->
       h = H_poweron_callback \/
       exists m, In m msgs /\ m <> "" /\ h = H_update_callback m).
Proof.
  revert s. induction msgs as [|m msgs IH]; intros s Hop.
  - exists [], [], s. cbn. rewrite !app_nil_r.
    repeat match goal with |- _ /\ _ => split end;
      try reflexivity; try assumption; try tauto.
  - cbn [parse_messages]. destruct (String.eqb m "") eqn:Hm; cbn [negb].
    + cbn [mbind Result_bind].
      destruct (IH s Hop)
        as (hs & cmds & s' & Hrun & Hop' & Hbuf & Hflag & Huc & Hclc & Hrp
            & Hready & Htim & Hsent & Hnudge & Htgt & Hp & Hu & Hhs).
      exists hs, cmds, s'.
      repeat match goal with |- _ /\ _ => split end; try assumption.
      intros h Hh. destruct (Hhs h Hh) as [-> | (m' & Hin & Hne & ->)];
        [left; reflexivity|].
      right. exists m'. split; [right; exact Hin|]. split; [exact Hne|].
      reflexivity.
    + set (s0 := debug s "assembled message %s" [LStr m]).
      assert (Hop0 : operational s0 = true)
        by exact (operational_debug s _ _ Hop).
      destruct (parse_message_spec s0 m Hop0)
        as (p & u & cmds1 & s1 & Hrun1 & Hop1 & Hbuf1 & Hflag1 & Huc1 & Hclc1
            & Hrp1 & Hready1 & Htim1 & Hsent1 & Hnudge1 & _ & _ & Htgt1 & _
            & Hp1 & _ & Hu1 & _).
      rewrite Hrun1. cbn [mbind Result_bind].
      destruct (IH s1 Hop1)
        as (hs & cmds & s' & Hrun & Hop' & Hbuf & Hflag & Huc & Hclc & Hrp
            & Hready & Htim & Hsent & Hnudge & Htgt & Hp & Hu & Hhs).
      exists ((if p then [H_poweron_callback] else []) ++
              (if u then [H_update_callback m] else []) ++ hs)%list,
        (cmds1 ++ cmds)%list, s'.
      assert (Hne : m <> "").
      { intros ->. discriminate Hm. }
      repeat match goal with |- _ /\ _ => split end.
      * exact Hrun.
      * exact Hop'.
      * rewrite Hbuf. exact Hbuf1.
      * rewrite Hflag. exact Hflag1.
      * rewrite Huc. exact Huc1.
      * rewrite Hclc. exact Hclc1.
      * rewrite Hrp. exact Hrp1.
      * rewrite Hready, Hready1.
        change (ready_handles s0) with (ready_handles s).
        rewrite <- !app_assoc. reflexivity.
      * rewrite Htim. exact Htim1.
      * rewrite Hsent, Hsent1. change (sent s0) with (sent s).
        rewrite <- app_assoc. reflexivity.
      * rewrite forallb_app, Hnudge1, Hnudge. reflexivity.
      * intros Hr. apply Htgt.
        exact (target_in_range_kept s0 s1 Htgt1 Hr).
      * intros Hf Hin. rewrite (Hp1 Hf) in Hin. cbn [app] in Hin.
        apply in_app_or in Hin as [Hin | Hin].
        -- destruct u; [destruct Hin as [Hin | []]; discriminate Hin
                       |destruct Hin].
        -- rewrite Hflag1 in Hp. exact (Hp Hf Hin).
      * intros Hf d Hin. rewrite (Hu1 Hf) in Hin.
        apply in_app_or in Hin as [Hin | Hin].
        -- destruct p; [destruct Hin as [Hin | []]; discriminate Hin
                       |destruct Hin].
        -- cbn [app] in Hin. rewrite Huc1 in Hu. exact (Hu Hf d Hin).
      * intros h Hin. apply in_app_or in Hin as [Hin | Hin].
        -- destruct p; [destruct Hin as [<- | []]; left; reflexivity
                       |destruct Hin].
        -- apply in_app_or in Hin as [Hin | Hin].
           ++ destruct u; [destruct Hin as [<- | []]|destruct Hin].
              right. exists m. split; [left; reflexivity|].
              split; [exact Hne|reflexivity].
           ++ destruct (Hhs h Hin) as [-> | (m' & Hin' & Hne' & ->)];
                [left; reflexivity|].
              right. exists m'. split; [right; exact Hin'|].
              split; [exact Hne'|reflexivity].
Qed.

(** [data_received] on a handler in working order. *)
Lemma data_received_spec (s : AVR) (data : string) :
  operational s = true ->
  exists (hs : list Handle) (cmds : list string) (s' : AVR) (t' : Transport),
    data_received s data = Ok s' /\
    operational s' = true /\
    buffer s' = "" /\
    transport s' = Some t' /\
    reading_paused t' = false /\
    _poweron_refresh_successful s' = _poweron_refresh_successful s /\
    _update_callback s' = _update_callback s /\
    _connection_lost_callback s' = _connection_lost_callback s /\
    ready_handles s' = (ready_handles s ++ hs)%list /\
    armed_timers s' = armed_timers s /\
    sent s' = (sent s ++ cmds)%list /\
    forallb is_nudge cmds = true /\
    (target_in_range s = true -> target_in_range s' = true) /\
    (_poweron_refresh_successful s = true -> ~ In H_poweron_callback hs) /\
    (_update_callback s = false ->
     forall d, ~ In (H_update_callback d) hs) /\
    (forall h, In h hs ->
       h = H_poweron_callback \/
       exists m, In m (split CR (buffer s +:+ data)) /\ m <> "" /\
                 h = H_update_callback m).
Proof.
  intros Hop. destruct (operational_parts s Hop) as (Hi & [l Hl] & [t Ht]).
  unfold data_received, _assemble_buffer.
  set (s0 := debug (with_buffer s (buffer s +:+ data)) _ _).
  unfold set_reading_paused at 2.
  change (transport s0) with (transport s). rewrite Ht.
  cbn [mbind Result_bind].
  set (s1 := with_transport s0 _).
  assert (Hop1 : operational s1 = true).
  { eapply operational_intro; [exact Hi|exact Hl|reflexivity]. }
  change (buffer s1) with (buffer s +:+ data).
  destruct (parse_messages_spec (split CR (buffer s +:+ data)) s1 Hop1)
    as (hs & cmds & s2 & Hrun & Hop2 & Hbuf & Hflag & Huc & Hclc & Hrp
        & Hready & Htim & Hsent & Hnudge & Htgt & Hp & Hu & Hhs).
  rewrite Hrun. cbn [mbind Result_bind].
  destruct (operational_parts s2 Hop2) as (Hi2 & [l2 Hl2] & [t2 Ht2]).
  unfold set_reading_paused. cbn [transport with_buffer]. rewrite Ht2.
  eexists hs, cmds, _, _. split; [reflexivity|].
  split; [eapply operational_intro; [exact Hi2|exact Hl2|reflexivity]|].
  repeat match goal with |- _ /\ _ => split end;
    try reflexivity; try assumption.
  unfold sent in Hsent |- *. rewrite Ht2 in Hsent. rewrite Ht. exact Hsent.
Qed.

(** ** What the decoder guarantees *)

(** X1. The prefixes of the catalog do not overlap: a message that starts
    with one of them starts with no other one, and with none of the three
    error prefixes. The order of the catalog and the [break] of the scan
    therefore never decide which attribute a message sets. *)
Theorem catalog_prefixes_do_not_overlap (data key : string) :
  In key (dict_keys LOOKUP) ->
  startswith data key = true ->
  (forall key',
      In key' (dict_keys LOOKUP) -> startswith data key' = true ->
      key' = key) /\
  startswith data "#11,01" = false /\
  startswith data "#11,02" = false /\
  startswith data "#11,03" = false.
Proof.
  intros Hin Hs. split.
  - intros key' Hin' Hs'.
    exact (catalog_first_match data key key' Hin Hin' Hs Hs').
  - exact (catalog_key_is_no_error data key Hin Hs).
Qed.

Lemma catalog_prefixes_do_not_overlap_witness :
  (forall key',
      In key' (dict_keys LOOKUP) -> startswith "#6,01,1" key' = true ->
      key' = ATTR_POWER_STATE) /\
  startswith "#6,01,1" "#11,01" = false /\
  startswith "#6,01,1" "#11,02" = false /\
  startswith "#6,01,1" "#11,03" = false.
Proof.
  apply (catalog_prefixes_do_not_overlap "#6,01,1" ATTR_POWER_STATE).
  - simpl. tauto.
  - reflexivity.
Defined.

(** X2. On a handler in working order (attributes initialised, loop and
    transport attached) the decoder returns for every message, whatever its
    text, and leaves the handler in working order. It keeps the buffer and
    the power-on flag, arms no timer, and writes at most two commands, each
    a volume step, and none at all unless the message is a volume
    message. *)
Theorem decode_never_raises (s : AVR) (data : string) :
  operational s = true ->
  exists (s' : AVR) (cmds : list string),
    _parse_message s data = Ok s' /\
    operational s' = true /\
    buffer s' = buffer s /\
    _poweron_refresh_successful s' = _poweron_refresh_successful s /\
    armed_timers s' = armed_timers s /\
    sent s' = (sent s ++ cmds)%list /\
    forallb is_nudge cmds = true /\
    (length cmds <= 2)%nat /\
    (startswith data ATTR_VOLUME_UP || startswith data ATTR_VOLUME_DOWN
       = false -> cmds = []).
Proof.
  intros Hop.
  destruct (parse_message_spec s data Hop)
    as (p & u & cmds & s' & Hrun & Hop' & Hbuf & Hflag & Huc & Hclc & Hrp
        & Hready & Htim & Hsent & Hnudge & Hlen & Hnovol & _).
  exists s', cmds. repeat split; assumption.
Qed.

Lemma decode_never_raises_witness :
  exists (s' : AVR) (cmds : list string),
    _parse_message just_connected "garbage" = Ok s' /\
    operational s' = true /\
    buffer s' = buffer just_connected /\
    _poweron_refresh_successful s' =
      _poweron_refresh_successful just_connected /\
    armed_timers s' = armed_timers just_connected /\
    sent s' = (sent just_connected ++ cmds)%list /\
    forallb is_nudge cmds = true /\
    (length cmds <= 2)%nat /\
    (startswith "garbage" ATTR_VOLUME_UP
     || startswith "garbage" ATTR_VOLUME_DOWN = false -> cmds = []).
Proof.
  apply (decode_never_raises just_connected "garbage").
  vm_compute. reflexivity.
Defined.

(** X3. On a handler in working order [data_received] returns for every
    chunk of text. Afterwards the buffer is empty, whether or not the chunk
    ended with a terminator, reading is resumed, no timer has been armed,
    and all that has been written are volume steps. *)
Theorem chunk_never_raises (s : AVR) (data : string) :
  operational s = true ->
  exists (s' : AVR) (t' : Transport) (cmds : list string),
    data_received s data = Ok s' /\
    operational s' = true /\
    buffer s' = "" /\
    transport s' = Some t' /\
    reading_paused t' = false /\
    armed_timers s' = armed_timers s /\
    sent s' = (sent s ++ cmds)%list /\
    forallb is_nudge cmds = true.
Proof.
  intros Hop.
  destruct (data_received_spec s data Hop)
    as (hs & cmds & s' & t' & Hrun & Hop' & Hbuf & Ht & Hrp & _ & _ & _ & _
        & Htim & Hsent & Hnudge & _).
  exists s', t', cmds. repeat split; assumption.
Qed.

Lemma chunk_never_raises_witness :
  exists (s' : AVR) (t' : Transport) (cmds : list string),
    data_received just_connected "#6,02,-4" = Ok s' /\
    operational s' = true /\
    buffer s' = "" /\
    transport s' = Some t' /\
    reading_paused t' = false /\
    armed_timers s' = armed_timers just_connected /\
    sent s' = (sent just_connected ++ cmds)%list /\
    forallb is_nudge cmds = true.
Proof.
  apply (chunk_never_raises just_connected "#6,02,-4").
  vm_compute. reflexivity.
Defined.

(** X4. A message made of a prefix of the catalog and any text stores the
    text after the first character that follows the prefix, whatever that
    character is, under the field of the prefix. Reading any attribute of
    the same field gives the new text; every attribute of another field
    reads as before. *)
Theorem attribute_message_is_stored (s : AVR) (key rest : string) :
  operational s = true ->
  In key (dict_keys LOOKUP) ->
  exists s',
    _parse_message s (key +:+ rest) = Ok s' /\
    _get_attribute_value s' key = Ok (slice_from 1 rest) /\
    forall key',
      In key' (dict_keys LOOKUP) ->
      (attr_name key' = attr_name key ->
       _get_attribute_value s' key' = Ok (slice_from 1 rest)) /\
      (attr_name key' <> attr_name key ->
       _get_attribute_value s' key' = _get_attribute_value s key').
Proof.
  intros Hop Hin.
  destruct (attr_name_catalog key Hin) as [name Hname].
  destruct (parse_message_spec s (key +:+ rest) Hop)
    as (p & u & cmds & s' & Hrun & _ & _ & _ & _ & _ & _ & _ & _ & _ & _
        & _ & _ & _ & _ & _ & _ & _ & _ & HD).
  destruct (HD key name Hin (startswith_self key rest) Hname)
    as (old & on & _ & Hat & _).
  rewrite slice_from_app in Hat.
  assert (Hsame : forall key',
             attr_name key' = attr_name key ->
             _get_attribute_value s' key' = Ok (slice_from 1 rest)).
  { intros key' Heq. unfold _get_attribute_value. rewrite Heq, Hname.
    cbn [mbind Result_bind]. unfold getattr. rewrite Hat.
    rewrite lookup_insert_eq. reflexivity. }
  exists s'. split; [exact Hrun|]. split; [exact (Hsame key eq_refl)|].
  intros key' Hin'. split; [exact (Hsame key')|].
  intros Hne. destruct (attr_name_catalog key' Hin') as [name' Hname'].
  unfold _get_attribute_value. rewrite Hname'. cbn [mbind Result_bind].
  unfold getattr. rewrite Hat.
  rewrite lookup_insert_ne; [reflexivity|].
  intros <-. apply Hne. rewrite Hname, Hname'. reflexivity.
Qed.

Lemma attribute_message_is_stored_witness :
  exists s',
    _parse_message just_connected (ATTR_MUTE_STATE +:+ ",01") = Ok s' /\
    _get_attribute_value s' ATTR_MUTE_STATE = Ok (slice_from 1 ",01") /\
    forall key',
      In key' (dict_keys LOOKUP) ->
      (attr_name key' = attr_name ATTR_MUTE_STATE ->
       _get_attribute_value s' key' = Ok (slice_from 1 ",01")) /\
      (attr_name key' <> attr_name ATTR_MUTE_STATE ->
       _get_attribute_value s' key' =
         _get_attribute_value just_connected key').
Proof.
  apply (attribute_message_is_stored just_connected ATTR_MUTE_STATE ",01").
  - vm_compute. reflexivity.
  - simpl. tauto.
Defined.

Lemma not_volume_key (key rest : string) :
  In key (dict_keys LOOKUP) ->
  key <> ATTR_VOLUME_UP -> key <> ATTR_VOLUME_DOWN ->
  startswith (key +:+ rest) ATTR_VOLUME_UP
  || startswith (key +:+ rest) ATTR_VOLUME_DOWN = false.
Proof.
  intros Hin Hup Hdown. apply orb_false_iff. split.
  - destruct (startswith (key +:+ rest) ATTR_VOLUME_UP) eqn:Hs;
      [|reflexivity].
    exfalso. apply Hup. symmetry.
    apply (catalog_prefix_unique key ATTR_VOLUME_UP rest Hin);
      [cbn; tauto|exact Hs].
  - destruct (startswith (key +:+ rest) ATTR_VOLUME_DOWN) eqn:Hs;
      [|reflexivity].
    exfalso. apply Hdown. symmetry.
    apply (catalog_prefix_unique key ATTR_VOLUME_DOWN rest Hin);
      [cbn; tauto|exact Hs].
Qed.

Lemma get_attribute_value_getattr (s : AVR) (key name v : string) :
  attr_name key = Ok name ->
  _get_attribute_value s key = Ok v -> getattr s name = Ok v.
Proof.
  intros Hname H. unfold _get_attribute_value in H. rewrite Hname in H.
  exact H.
Qed.

Lemma getattr_lookup (s : AVR) (name v : string) :
  getattr s name = Ok v -> attrs s !! name = Some v.
Proof.
  unfold getattr. destruct (attrs s !! name); [|discriminate].
  intros H. injection H as ->. reflexivity.
Qed.

(** X5. A message that repeats the stored value of an attribute other than
    the volume changes no stored attribute, writes nothing and schedules no
    update callback: the ready queue gains at most the power-on
    callback. *)
Theorem repeated_message_changes_nothing (s : AVR) (key rest : string) :
  operational s = true ->
  In key (dict_keys LOOKUP) ->
  key <> ATTR_VOLUME_UP -> key <> ATTR_VOLUME_DOWN ->
  _get_attribute_value s key = Ok (slice_from 1 rest) ->
  exists s',
    _parse_message s (key +:+ rest) = Ok s' /\
    attrs s' = attrs s /\
    sent s' = sent s /\
    (ready_handles s' = ready_handles s \/
     ready_handles s' = (ready_handles s ++ [H_poweron_callback])%list).
Proof.
  intros Hop Hin Hup Hdown Hold.
  destruct (attr_name_catalog key Hin) as [name Hname].
  destruct (parse_message_spec s (key +:+ rest) Hop)
    as (p & u & cmds & s' & Hrun & _ & _ & _ & _ & _ & _ & Hready & _
        & Hsent & _ & _ & Hnovol & _ & _ & _ & _ & _ & _ & HD).
  destruct (HD key name Hin (startswith_self key rest) Hname)
    as (old & on & Hget & Hat & _ & _ & Hu).
  rewrite slice_from_app in Hat, Hu.
  pose proof (get_attribute_value_getattr s key name _ Hname Hold) as Hget'.
  rewrite Hget' in Hget. injection Hget as <-.
  rewrite (not_volume_key key rest Hin Hup Hdown), String.eqb_refl in Hu.
  cbn in Hu. rewrite andb_false_r in Hu. subst u.
  rewrite (Hnovol (not_volume_key key rest Hin Hup Hdown)) in Hsent.
  rewrite app_nil_r in Hsent, Hready.
  exists s'. split; [exact Hrun|]. split.
  - rewrite Hat. apply insert_id. exact (getattr_lookup s name _ Hget').
  - split; [exact Hsent|].
    destruct p; [right; exact Hready|left].
    rewrite Hready. apply app_nil_r.
Qed.

Lemma repeated_message_changes_nothing_witness :
  exists s',
    _parse_message just_connected (ATTR_SW_VERSION +:+ ",") = Ok s' /\
    attrs s' = attrs just_connected /\
    sent s' = sent just_connected /\
    (ready_handles s' = ready_handles just_connected \/
     ready_handles s' =
       (ready_handles just_connected ++ [H_poweron_callback])%list).
Proof.
  apply (repeated_message_changes_nothing just_connected ATTR_SW_VERSION ",").
  - vm_compute. reflexivity.
  - simpl. tauto.
  - discriminate.
  - discriminate.
  - vm_compute. reflexivity.
Defined.

Lemma volume_test_catalog (key rest : string) :
  In key (dict_keys LOOKUP) ->
  startswith (key +:+ rest) ATTR_VOLUME_UP
  || startswith (key +:+ rest) ATTR_VOLUME_DOWN
  = String.eqb key ATTR_VOLUME_UP || String.eqb key ATTR_VOLUME_DOWN.
Proof.
  intros Hin.
  destruct (String.eqb_spec key ATTR_VOLUME_UP) as [->|Hup].
  { rewrite startswith_self. reflexivity. }
  destruct (String.eqb_spec key ATTR_VOLUME_DOWN) as [->|Hdown].
  { rewrite startswith_self, orb_true_r. reflexivity. }
  exact (not_volume_key key rest Hin Hup Hdown).
Qed.

(** X6. An attribute message schedules the update callback exactly when a
    callback was supplied and the message either changes the stored value
    or is a volume message: a volume message is reported even when it
    repeats the stored value. The callback is scheduled once, with the
    message as its argument, after the power-on callback if that one is
    scheduled too. *)
Theorem update_is_scheduled_on_change (s : AVR) (key rest old : string) :
  operational s = true ->
  In key (dict_keys LOOKUP) ->
  _get_attribute_value s key = Ok old ->
  exists (s' : AVR) (p : bool),
    _parse_message s (key +:+ rest) = Ok s' /\
    ready_handles s' =
      (ready_handles s ++
       (if p then [H_poweron_callback] else []) ++
       (if _update_callback s
           && (String.eqb key ATTR_VOLUME_UP
               || String.eqb key ATTR_VOLUME_DOWN
               || negb (String.eqb old (slice_from 1 rest)))
        then [H_update_callback (key +:+ rest)] else []))%list.
Proof.
  intros Hop Hin Hold.
  destruct (attr_name_catalog key Hin) as [name Hname].
  destruct (parse_message_spec s (key +:+ rest) Hop)
    as (p & u & cmds & s' & Hrun & _ & _ & _ & _ & _ & _ & Hready & _
        & _ & _ & _ & _ & _ & _ & _ & _ & _ & _ & HD).
  destruct (HD key name Hin (startswith_self key rest) Hname)
    as (old' & on & Hget & _ & _ & _ & Hu).
  rewrite slice_from_app in Hu.
  rewrite (get_attribute_value_getattr s key name _ Hname Hold) in Hget.
  injection Hget as <-.
  rewrite (volume_test_catalog key rest Hin) in Hu. subst u.
  exists s', p. split; [exact Hrun|exact Hready].
Qed.

Lemma update_is_scheduled_on_change_witness :
  exists (s' : AVR) (p : bool),
    _parse_message just_connected (ATTR_VOLUME_UP +:+ ",") = Ok s' /\
    ready_handles s' =
      (ready_handles just_connected ++
       (if p then [H_poweron_callback] else []) ++
       (if _update_callback just_connected
           && (String.eqb ATTR_VOLUME_UP ATTR_VOLUME_UP
               || String.eqb ATTR_VOLUME_UP ATTR_VOLUME_DOWN
               || negb (String.eqb "" (slice_from 1 ",")))
        then [H_update_callback (ATTR_VOLUME_UP +:+ ",")] else []))%list.
Proof.
  apply (update_is_scheduled_on_change just_connected ATTR_VOLUME_UP "," "").
  - vm_compute. reflexivity.
  - simpl. tauto.
  - vm_compute. reflexivity.
Defined.

(** X7. What a chunk schedules is governed by the two flags of the handler.
    Every handle a chunk adds to the ready queue is the power-on callback
    or the update callback for one of the non-empty segments of the buffer;
    once the power-on flag is set no chunk schedules the power-on callback
    again, and without an update callback no update is scheduled. *)
Theorem chunk_schedules_by_flags (s : AVR) (data : string) :
  operational s = true ->
  exists (s' : AVR) (hs : list Handle),
    data_received s data = Ok s' /\
    ready_handles s' = (ready_handles s ++ hs)%list /\
    _poweron_refresh_successful s' = _poweron_refresh_successful s /\
    _update_callback s' = _update_callback s /\
    (_poweron_refresh_successful s = true -> ~ In H_poweron_callback hs) /\
    (_update_callback s = false ->
     forall d, ~ In (H_update_callback d) hs) /\
    (forall h, In h hs ->
       h = H_poweron_callback \/
       exists m, In m (split CR (buffer s +:+ data)) /\ m <> "" /\
                 h = H_update_callback m).
Proof.
  intros Hop.
  destruct (data_received_spec s data Hop)
    as (hs & cmds & s' & t' & Hrun & _ & _ & _ & _ & Hflag & Huc & _
        & Hready & _ & _ & _ & _ & Hp & Hu & Hhs).
  exists s', hs. repeat split; assumption.
Qed.

Lemma chunk_schedules_by_flags_witness :
  exists (s' : AVR) (hs : list Handle),
    data_received just_connected (line "#6,01,1") = Ok s' /\
    ready_handles s' = (ready_handles just_connected ++ hs)%list /\
    _poweron_refresh_successful s' =
      _poweron_refresh_successful just_connected /\
    _update_callback s' = _update_callback just_connected /\
    (_poweron_refresh_successful just_connected = true ->
     ~ In H_poweron_callback hs) /\
    (_update_callback just_connected = false ->
     forall d, ~ In (H_update_callback d) hs) /\
    (forall h, In h hs ->
       h = H_poweron_callback \/
       exists m,
         In m (split CR (buffer just_connected +:+ line "#6,01,1")) /\
         m <> "" /\ h = H_update_callback m).
Proof.
  apply (chunk_schedules_by_flags just_connected (line "#6,01,1")).
  vm_compute. reflexivity.
Defined.

(** X8. An error answer of the device (one of the three error prefixes) is
    decoded on every handler, even one without loop or transport: a warning
    and one debug line are logged, and nothing else changes. *)
Theorem error_answer_changes_nothing (s : AVR) (data : string) :
  startswith data "#11,01" || startswith data "#11,02"
    || startswith data "#11,03" = true ->
  exists (s' : AVR) (w : string),
    _parse_message s data = Ok s' /\
    log s' =
      (log s ++ [mkLogRecord WARNING w [];
                 mkLogRecord DEBUG "No new data encountered" []])%list /\
    attrs s' = attrs s /\
    _loop s' = _loop s /\
    transport s' = transport s /\
    buffer s' = buffer s /\
    _poweron_refresh_successful s' = _poweron_refresh_successful s /\
    _volume_target s' = _volume_target s /\
    _volume_update_state s' = _volume_update_state s.
Proof.
  intros He. destruct (parse_error_message s data He) as [m Hm].
  exists (debug (warning s m []) "No new data encountered" []), m.
  split; [exact Hm|]. cbn. rewrite <- app_assoc. repeat split.
Qed.

Lemma error_answer_changes_nothing_witness :
  exists (s' : AVR) (w : string),
    _parse_message blank "#11,02,x" = Ok s' /\
    log s' =
      (log blank ++ [mkLogRecord WARNING w [];
                     mkLogRecord DEBUG "No new data encountered" []])%list /\
    attrs s' = attrs blank /\
    _loop s' = _loop blank /\
    transport s' = transport blank /\
    buffer s' = buffer blank /\
    _poweron_refresh_successful s' = _poweron_refresh_successful blank /\
    _volume_target s' = _volume_target blank /\
    _volume_update_state s' = _volume_update_state blank.
Proof.
  apply (error_answer_changes_nothing blank "#11,02,x"). reflexivity.
Defined.

(** ** The target of the convergence *)

Lemma set_attenuation_target (s s' : AVR) (value : PyValue) :
  target_in_range s = true ->
  set_attenuation s value = Ok s' -> target_in_range s' = true.
Proof.
  intros Hr H. unfold set_attenuation in H.
  apply bind_Ok in H as (cur & _ & H).
  destruct value as [|v|x|t]; try (injection H as <-; exact Hr).
  destruct ((-90 <=? v) && (v <=? 0) && negb (v =? cur)) eqn:Hc;
    [|injection H as <-; exact Hr].
  apply andb_true_iff in Hc as [Hc _].
  injection H as <-. unfold send_command, target_in_range.
  cbn [transport debug with_log with_volume_target].
  destruct (transport s); exact Hc.
Qed.

Lemma set_volume_target (s s' : AVR) (value : PyValue) :
  target_in_range s = true ->
  set_volume s value = Ok s' -> target_in_range s' = true.
Proof.
  intros Hr H. unfold set_volume in H.
  destruct value as [|v|x|t]; try (injection H as <-; exact Hr).
  destruct ((0 <=? v) && (v <=? 100)); [|injection H as <-; exact Hr].
  apply bind_Ok in H as (a & _ & H).
  exact (set_attenuation_target s s' _ Hr H).
Qed.

Lemma refresh_volume_target (s s' : AVR) (tries : Z) :
  _refresh_volume s tries = Ok s' -> _volume_target s' = _volume_target s.
Proof.
  unfold _refresh_volume, call_later, send_command.
  destruct s as [lo lg clc uc buf flag vus tgt tr ats]. cbn.
  destruct (vus =? 0); cbn;
    [|destruct (vus =? 1); cbn];
    try (destruct (tries <? 10); cbn);
    try (destruct tr; cbn);
    try (destruct lo; cbn);
    try discriminate;
    intros H; injection H as <-; cbn;
    repeat match goal with
           | |- context [if ?c then _ else _] => destruct c; cbn
           end; reflexivity.
Qed.

(** X9. The target of the convergence is always unset or an attenuation
    between -90 and 0: no setter, no chunk of bytes and no callback of the
    probe takes it out of that range. *)
Theorem target_stays_in_range (s : AVR) :
  target_in_range s = true ->
  (forall value s',
      set_attenuation s value = Ok s' -> target_in_range s' = true) /\
  (forall value s',
      set_volume s value = Ok s' -> target_in_range s' = true) /\
  (forall value s',
      set_volume_as_percentage s value = Ok s' ->
      target_in_range s' = true) /\
  (forall tries s',
      _refresh_volume s tries = Ok s' -> target_in_range s' = true) /\
  (forall s', _poweron_callback s = Ok s' -> target_in_range s' = true) /\
  (forall data,
      operational s = true ->
      exists s', data_received s data = Ok s' /\ target_in_range s' = true).
Proof.
  intros Hr.
  repeat match goal with |- _ /\ _ => split end.
  - intros value s'. exact (set_attenuation_target s s' value Hr).
  - intros value s'. exact (set_volume_target s s' value Hr).
  - intros value s' H. unfold set_volume_as_percentage in H.
    destruct value as [|v|x|t]; try (injection H as <-; exact Hr).
    + destruct ((0 <=? v) && (v <=? 1)); [|injection H as <-; exact Hr].
      exact (set_volume_target s s' _ Hr H).
    + destruct (SFleb (S754_zero false) x && SFleb x float_one);
        [|injection H as <-; exact Hr].
      apply bind_Ok in H as (h & _ & H). apply bind_Ok in H as (r & _ & H).
      exact (set_volume_target s s' _ Hr H).
  - intros tries s' H. unfold target_in_range.
    rewrite (refresh_volume_target s s' tries H). exact Hr.
  - intros s' H. unfold _poweron_callback in H.
    apply bind_Ok in H as (s1 & H1 & H). injection H as <-.
    unfold target_in_range.
    cbn [_volume_target with_poweron_refresh_successful].
    rewrite (refresh_volume_target _ s1 0 H1). exact Hr.
  - intros data Hop.
    destruct (data_received_spec s data Hop)
      as (hs & cmds & s' & t' & Hrun & _ & _ & _ & _ & _ & _ & _ & _ & _
          & _ & _ & Htgt & _).
    exists s'. split; [exact Hrun|exact (Htgt Hr)].
Qed.

Lemma target_stays_in_range_witness :
  (forall value s',
      set_attenuation just_connected value = Ok s' ->
      target_in_range s' = true) /\
  (forall value s',
      set_volume just_connected value = Ok s' -> target_in_range s' = true) /\
  (forall value s',
      set_volume_as_percentage just_connected value = Ok s' ->
      target_in_range s' = true) /\
  (forall tries s',
      _refresh_volume just_connected tries = Ok s' ->
      target_in_range s' = true) /\
  (forall s',
      _poweron_callback just_connected = Ok s' ->
      target_in_range s' = true) /\
  (forall data,
      operational just_connected = true ->
      exists s',
        data_received just_connected data = Ok s' /\
        target_in_range s' = true).
Proof. apply (target_stays_in_range just_connected). reflexivity. Defined.

(** ** Frames *)

(** [split] cuts at the first terminator. *)
Lemma split_line (message rest : string) :
  forallb (fun c => negb (Ascii.eqb c CR)) (list_ascii_of_string message)
    = true ->
  split CR (message +:+ String CR rest) = message :: split CR rest /\
  split CR message = [message].
Proof.
  induction message as [|c message IH]; intros H.
  - split; reflexivity.
  - cbn [list_ascii_of_string forallb] in H.
    apply andb_true_iff in H as [Hc H]. destruct (IH H) as [IH1 IH2].
    apply negb_true_iff in Hc.
    change (String c message +:+ String CR rest)
      with (String c (message +:+ String CR rest)).
    cbn [split]. rewrite Hc, IH1, IH2. split; reflexivity.
Qed.

(** ** Inputs *)

Lemma format_02d_range :
  forallb
    (fun n =>
       match int_of_str (format_02d n) with
       | Ok m => (m =? n) && Nat.eqb (String.length (format_02d n)) 2
       | Raise _ => false
       end)
    (Z_range 1 99) = true.
Proof. vm_compute. reflexivity. Qed.

Lemma format_02d_parses (n : Z) :
  1 <= n <= 99 ->
  int_of_str (format_02d n) = Ok n /\ String.length (format_02d n) = 2%nat.
Proof.
  intros Hn. pose proof format_02d_range as H.
  rewrite forallb_forall in H. specialize (H n (in_Z_range 1 n 99 ltac:(lia))).
  destruct (int_of_str (format_02d n)) as [m|]; [|discriminate H].
  apply andb_true_iff in H as [Hm Hl].
  apply Z.eqb_eq in Hm. apply Nat.eqb_eq in Hl. subst m.
  split; [reflexivity|exact Hl].
Qed.

Lemma set_input_number_sent (s : AVR) (n : Z) :
  has_transport s = true -> 1 <= n <= 99 ->
  sent (set_input_number s (PyInt n))
    = (sent s ++ [wire CMD_SELECT_INPUT (format_02d n)])%list.
Proof.
  intros Ht Hn. unfold set_input_number.
  replace ((1 <=? n) && (n <=? 99)) with true
    by (symmetry; apply andb_true_iff; split; apply Z.leb_le; lia).
  unfold has_transport in Ht. unfold sent, send_command.
  cbn [transport debug with_log].
  destruct (transport s) as [t|]; [reflexivity|discriminate Ht].
Qed.

Lemma input_answer_is_read (s : AVR) (n : Z) :
  operational s = true -> 1 <= n <= 99 ->
  exists s',
    _parse_message s (ATTR_SELECTED_INPUT +:+ "," +:+ format_02d n) = Ok s' /\
    input_number s' = Ok n.
Proof.
  intros Hop Hn.
  destruct (parse_message_spec s
              (ATTR_SELECTED_INPUT +:+ "," +:+ format_02d n) Hop)
    as (p & u & cmds & s' & Hrun & _ & _ & _ & _ & _ & _ & _ & _ & _ & _
        & _ & _ & _ & _ & _ & _ & _ & _ & HD).
  destruct (HD ATTR_SELECTED_INPUT "_selected_input")
    as (old & on & _ & Hat & _).
  { cbn. tauto. }
  { apply startswith_self. }
  { reflexivity. }
  rewrite slice_from_app in Hat.
  change (slice_from 1 ("," +:+ format_02d n)) with (format_02d n) in Hat.
  exists s'. split; [exact Hrun|].
  unfold input_number, _get_integer, _get_attribute_value.
  change (attr_name ATTR_SELECTED_INPUT)
    with (Ok "_selected_input" : Result string).
  cbn [mbind Result_bind]. unfold getattr. rewrite Hat, lookup_insert_eq.
  cbn [mbind Result_bind].
  destruct (format_02d_parses n Hn) as [-> _]. reflexivity.
Qed.

(** X10. Selecting an input by its number and reading the answer back. For
    a number from 1 to 99 the setter writes the select command with the
    number as two decimal digits, and once the device has answered with the
    selected-input prefix and those two digits, [input_number] reads the
    same number. *)
Theorem input_number_round_trip (s : AVR) (n : Z) :
  operational s = true -> 1 <= n <= 99 ->
  sent (set_input_number s (PyInt n))
    = (sent s ++ [wire CMD_SELECT_INPUT (format_02d n)])%list /\
  String.length (format_02d n) = 2%nat /\
  exists s',
    _parse_message s (ATTR_SELECTED_INPUT +:+ "," +:+ format_02d n) = Ok s' /\
    input_number s' = Ok n.
Proof.
  intros Hop Hn. destruct (operational_parts s Hop) as (_ & _ & [t Ht]).
  split; [|split].
  - apply set_input_number_sent; [|exact Hn].
    unfold has_transport. rewrite Ht. reflexivity.
  - exact (proj2 (format_02d_parses n Hn)).
  - exact (input_answer_is_read s n Hop Hn).
Qed.

Lemma input_number_round_trip_witness :
  sent (set_input_number just_connected (PyInt 12))
    = (sent just_connected ++ [wire CMD_SELECT_INPUT (format_02d 12)])%list /\
  String.length (format_02d 12) = 2%nat /\
  exists s',
    _parse_message just_connected
      (ATTR_SELECTED_INPUT +:+ "," +:+ format_02d 12) = Ok s' /\
    input_number s' = Ok 12.
Proof.
  apply (input_number_round_trip just_connected 12).
  - vm_compute. reflexivity.
  - lia.
Defined.

Lemma input_names_cases (n : Z) (name : string) :
  In (n, name) INPUT_NAMES ->
  1 <= n <= 9 /\
  dict_find INPUT_NUMBERS name = Some n /\
  names_get INPUT_NAMES n "Unknown" = name.
Proof.
  cbn. intros H.
  repeat (destruct H as [H | H];
          [injection H as <- <-; split; [lia|split; reflexivity]|]).
  destruct H.
Qed.

(** X11. Selecting an input by its name and reading the name back. For
    every name of the table the name setter does what the number setter
    does with the number of that name, so it writes the select command for
    that number; and once the device has answered with that number,
    [input_name] reads the same name. *)
Theorem input_name_round_trip (s : AVR) (n : Z) (name : string) :
  operational s = true ->
  In (n, name) INPUT_NAMES ->
  set_input_name s (PyStr name) = set_input_number s (PyInt n) /\
  sent (set_input_name s (PyStr name))
    = (sent s ++ [wire CMD_SELECT_INPUT (format_02d n)])%list /\
  exists s',
    _parse_message s (ATTR_SELECTED_INPUT +:+ "," +:+ format_02d n) = Ok s' /\
    input_name s' = Ok name.
Proof.
  intros Hop Hin.
  destruct (input_names_cases n name Hin) as (Hn & Hfind & Hget).
  destruct (operational_parts s Hop) as (_ & _ & [t Ht]).
  assert (Hset : set_input_name s (PyStr name) = set_input_number s (PyInt n)).
  { unfold set_input_name. rewrite Hfind.
    replace (n >? 0) with true by (symmetry; apply Z.gtb_lt; lia).
    reflexivity. }
  split; [exact Hset|]. split.
  - rewrite Hset. apply set_input_number_sent; [|lia].
    unfold has_transport. rewrite Ht. reflexivity.
  - destruct (input_answer_is_read s n Hop ltac:(lia)) as (s' & Hrun & Hnum).
    exists s'. split; [exact Hrun|].
    unfold input_name. rewrite Hnum. cbn [mbind Result_bind].
    rewrite Hget. reflexivity.
Qed.

Lemma input_name_round_trip_witness :
  set_input_name just_connected (PyStr "Tuner")
    = set_input_number just_connected (PyInt 6) /\
  sent (set_input_name just_connected (PyStr "Tuner"))
    = (sent just_connected ++ [wire CMD_SELECT_INPUT (format_02d 6)])%list /\
  exists s',
    _parse_message just_connected
      (ATTR_SELECTED_INPUT +:+ "," +:+ format_02d 6) = Ok s' /\
    input_name s' = Ok "Tuner".
Proof.
  apply (input_name_round_trip just_connected 6 "Tuner").
  - vm_compute. reflexivity.
  - simpl. tauto.
Defined.

Lemma dict_find_none {V : Type} (d : dict V) (k : string) :
  (forall v, ~ In (k, v) d) -> dict_find d k = None.
Proof.
  induction d as [|[k' v'] d IH]; intros H; [reflexivity|].
  cbn [dict_find]. destruct (String.eqb_spec k' k) as [->|Hne].
  - exfalso. apply (H v'). left. reflexivity.
  - apply IH. intros v Hin. apply (H v). right. exact Hin.
Qed.

Lemma input_numbers_names (name : string) (n : Z) :
  In (name, n) INPUT_NUMBERS -> In (n, name) INPUT_NAMES.
Proof.
  cbn. intros H.
  repeat (destruct H as [H | H]; [injection H as <- <-; tauto|]).
  destruct H.
Qed.

Lemma names_get_unknown (d : list (Z * string)) (n : Z) (default : string) :
  (forall name, ~ In (n, name) d) -> names_get d n default = default.
Proof.
  induction d as [|[k v] d IH]; intros H; [reflexivity|].
  cbn [names_get]. destruct (Z.eqb_spec k n) as [->|Hne].
  - exfalso. apply (H v). left. reflexivity.
  - apply IH. intros name Hin. apply (H name). right. exact Hin.
Qed.

(** X12. What is not in the table of inputs. The name setter ignores a name
    that the table does not have, and a value that is no text: the handler
    is returned as it is and nothing is written. When the stored input
    number is none of the table, [input_name] reads ["Unknown"]. *)
Theorem unknown_input_is_ignored (s : AVR) :
  (forall name,
      (forall n, ~ In (n, name) INPUT_NAMES) ->
      set_input_name s (PyStr name) = s) /\
  (forall n, set_input_name s (PyInt n) = s) /\
  (forall x, set_input_name s (PyFloat x) = s) /\
  set_input_name s PyNone = s /\
  (forall n,
      input_number s = Ok n ->
      (forall name, ~ In (n, name) INPUT_NAMES) ->
      input_name s = Ok "Unknown").
Proof.
  repeat match goal with |- _ /\ _ => split end; try reflexivity.
  - intros name H. unfold set_input_name.
    rewrite (dict_find_none INPUT_NUMBERS name); [reflexivity|].
    intros n Hin. exact (H n (input_numbers_names name n Hin)).
  - intros n Hnum H. unfold input_name. rewrite Hnum.
    cbn [mbind Result_bind]. rewrite (names_get_unknown _ n _ H).
    reflexivity.
Qed.

Lemma unknown_input_is_ignored_witness :
  set_input_name just_connected (PyStr "Phono") = just_connected /\
  input_name just_connected = Ok "Unknown".
Proof.
  destruct (unknown_input_is_ignored just_connected)
    as (Hname & _ & _ & _ & Hnum).
  split.
  - apply Hname. intros n H. simpl in H.
    repeat (destruct H as [H | H]; [discriminate H|]). exact H.
  - apply (Hnum 0); [reflexivity|]. intros name H. simpl in H.
    repeat (destruct H as [H | H]; [discriminate H|]). exact H.
Defined.

(** ** Volume scales *)

Lemma attenuation_to_volume_table :
  forallb
    (fun a =>
       match attenuation_to_volume (PyInt a),
             attenuation_to_volume (PyInt (a + 1)) with
       | Ok v, Ok w => (0 <=? v) && (v <=? w) && (w <=? 100)
       | _, _ => false
       end)
    (Z_range (-90) 90) = true.
Proof. vm_compute. reflexivity. Qed.

Lemma attenuation_to_volume_step (a : Z) :
  -90 <= a < 0 ->
  exists v w,
    attenuation_to_volume (PyInt a) = Ok v /\
    attenuation_to_volume (PyInt (a + 1)) = Ok w /\
    0 <= v /\ v <= w /\ w <= 100.
Proof.
  intros Ha. pose proof attenuation_to_volume_table as H.
  rewrite forallb_forall in H.
  specialize (H a (in_Z_range (-90) a 90 ltac:(lia))).
  destruct (attenuation_to_volume (PyInt a)) as [v|]; [|discriminate H].
  destruct (attenuation_to_volume (PyInt (a + 1))) as [w|];
    [|discriminate H].
  apply andb_true_iff in H as [H Hw]. apply andb_true_iff in H as [Hv Hvw].
  exists v, w. repeat split; try reflexivity; lia.
Qed.

(** X13. On the attenuations the device reports, -90 to 0, the conversion
    to a volume returns, stays between 0 and 100 and keeps the order: a
    higher attenuation value never gives a lower volume. The two ends give
    0 and 100. *)
Theorem attenuation_to_volume_is_monotone (a b : Z) :
  -90 <= a -> a <= b -> b <= 0 ->
  exists v w,
    attenuation_to_volume (PyInt a) = Ok v /\
    attenuation_to_volume (PyInt b) = Ok w /\
    0 <= v /\ v <= w /\ w <= 100 /\
    attenuation_to_volume (PyInt (-90)) = Ok 0 /\
    attenuation_to_volume (PyInt 0) = Ok 100.
Proof.
  intros Ha Hab Hb.
  assert (Hone : forall c, -90 <= c <= 0 ->
            exists v, attenuation_to_volume (PyInt c) = Ok v /\ 0 <= v <= 100).
  { intros c Hc. destruct (Z.eq_dec c 0) as [->|Hne].
    - exists 100. split; [vm_compute; reflexivity|lia].
    - destruct (attenuation_to_volume_step c ltac:(lia))
        as (v & w & Hv & _ & H0 & Hvw & Hw).
      exists v. split; [exact Hv|lia]. }
  assert (Hmono : forall k : nat, forall c, -90 <= c -> c + Z.of_nat k <= 0 ->
            exists v w,
              attenuation_to_volume (PyInt c) = Ok v /\
              attenuation_to_volume (PyInt (c + Z.of_nat k)) = Ok w /\
              v <= w).
  { induction k as [|k IH]; intros c Hc Hk.
    - destruct (Hone c ltac:(lia)) as (v & Hv & _).
      exists v, v. replace (c + Z.of_nat 0) with c by lia.
      repeat split; try assumption; lia.
    - destruct (IH c Hc ltac:(lia)) as (v & w & Hv & Hw & Hvw).
      destruct (attenuation_to_volume_step (c + Z.of_nat k) ltac:(lia))
        as (w' & x & Hw' & Hx & _ & Hwx & _).
      rewrite Hw in Hw'. injection Hw' as <-.
      exists v, x. split; [exact Hv|]. split; [|lia].
      replace (c + Z.of_nat (S k)) with (c + Z.of_nat k + 1) by lia.
      exact Hx. }
  destruct (Hmono (Z.to_nat (b - a)) a Ha ltac:(lia))
    as (v & w & Hv & Hw & Hvw).
  replace (a + Z.of_nat (Z.to_nat (b - a))) with b in Hw by lia.
  destruct (Hone a ltac:(lia)) as (v' & Hv' & Hrv).
  destruct (Hone b ltac:(lia)) as (w' & Hw' & Hrw).
  rewrite Hv in Hv'. injection Hv' as <-.
  rewrite Hw in Hw'. injection Hw' as <-.
  exists v, w. repeat split; try assumption; try lia;
    vm_compute; reflexivity.
Qed.

Lemma attenuation_to_volume_is_monotone_witness :
  exists v w,
    attenuation_to_volume (PyInt (-60)) = Ok v /\
    attenuation_to_volume (PyInt (-20)) = Ok w /\
    0 <= v /\ v <= w /\ w <= 100 /\
    attenuation_to_volume (PyInt (-90)) = Ok 0 /\
    attenuation_to_volume (PyInt 0) = Ok 100.
Proof. apply (attenuation_to_volume_is_monotone (-60) (-20)); lia. Defined.

Lemma volume_to_attenuation_table :
  forallb
    (fun v =>
       match volume_to_attenuation (PyInt v),
             volume_to_attenuation (PyInt (v + 1)) with
       | Ok a, Ok b => (-90 <=? a) && (a <=? b) && (b <=? 0)
       | _, _ => false
       end)
    (Z_range 0 100) = true.
Proof. vm_compute. reflexivity. Qed.

Lemma volume_to_attenuation_step (v : Z) :
  0 <= v < 100 ->
  exists a b,
    volume_to_attenuation (PyInt v) = Ok a /\
    volume_to_attenuation (PyInt (v + 1)) = Ok b /\
    -90 <= a /\ a <= b /\ b <= 0.
Proof.
  intros Hv. pose proof volume_to_attenuation_table as H.
  rewrite forallb_forall in H.
  specialize (H v (in_Z_range 0 v 100 ltac:(lia))).
  destruct (volume_to_attenuation (PyInt v)) as [a|]; [|discriminate H].
  destruct (volume_to_attenuation (PyInt (v + 1))) as [b|];
    [|discriminate H].
  apply andb_true_iff in H as [H Hb]. apply andb_true_iff in H as [Ha Hab].
  exists a, b. repeat split; try reflexivity; lia.
Qed.

(** X14. On the volumes the setter accepts, 0 to 100, the conversion to an
    attenuation returns, stays between -90 and 0 and keeps the order. The
    two ends give -90 and 0. *)
Theorem volume_to_attenuation_is_monotone (v w : Z) :
  0 <= v -> v <= w -> w <= 100 ->
  exists a b,
    volume_to_attenuation (PyInt v) = Ok a /\
    volume_to_attenuation (PyInt w) = Ok b /\
    -90 <= a /\ a <= b /\ b <= 0 /\
    volume_to_attenuation (PyInt 0) = Ok (-90) /\
    volume_to_attenuation (PyInt 100) = Ok 0.
Proof.
  intros Hv Hvw Hw.
  assert (Hone : forall c, 0 <= c <= 100 ->
            exists a, volume_to_attenuation (PyInt c) = Ok a /\ -90 <= a <= 0).
  { intros c Hc. destruct (Z.eq_dec c 100) as [->|Hne].
    - exists 0. split; [vm_compute; reflexivity|lia].
    - destruct (volume_to_attenuation_step c ltac:(lia))
        as (a & b & Ha & _ & H0 & Hab & Hb).
      exists a. split; [exact Ha|lia]. }
  assert (Hmono : forall k : nat, forall c, 0 <= c -> c + Z.of_nat k <= 100 ->
            exists a b,
              volume_to_attenuation (PyInt c) = Ok a /\
              volume_to_attenuation (PyInt (c + Z.of_nat k)) = Ok b /\
              a <= b).
  { induction k as [|k IH]; intros c Hc Hk.
    - destruct (Hone c ltac:(lia)) as (a & Ha & _).
      exists a, a. replace (c + Z.of_nat 0) with c by lia.
      repeat split; try assumption; lia.
    - destruct (IH c Hc ltac:(lia)) as (a & b & Ha & Hb & Hab).
      destruct (volume_to_attenuation_step (c + Z.of_nat k) ltac:(lia))
        as (b' & x & Hb' & Hx & _ & Hbx & _).
      rewrite Hb in Hb'. injection Hb' as <-.
      exists a, x. split; [exact Ha|]. split; [|lia].
      replace (c + Z.of_nat (S k)) with (c + Z.of_nat k + 1) by lia.
      exact Hx. }
  destruct (Hmono (Z.to_nat (w - v)) v Hv ltac:(lia))
    as (a & b & Ha & Hb & Hab).
  replace (v + Z.of_nat (Z.to_nat (w - v))) with w in Hb by lia.
  destruct (Hone v ltac:(lia)) as (a' & Ha' & Hra).
  destruct (Hone w ltac:(lia)) as (b' & Hb' & Hrb).
  rewrite Ha in Ha'. injection Ha' as <-.
  rewrite Hb in Hb'. injection Hb' as <-.
  exists a, b. repeat split; try assumption; try lia;
    vm_compute; reflexivity.
Qed.

Lemma volume_to_attenuation_is_monotone_witness :
  exists a b,
    volume_to_attenuation (PyInt 20) = Ok a /\
    volume_to_attenuation (PyInt 75) = Ok b /\
    -90 <= a /\ a <= b /\ b <= 0 /\
    volume_to_attenuation (PyInt 0) = Ok (-90) /\
    volume_to_attenuation (PyInt 100) = Ok 0.
Proof. apply (volume_to_attenuation_is_monotone 20 75); lia. Defined.

Lemma percentage_table :
  forallb
    (fun v =>
       match int_truediv v 100 with
       | Ok x =>
           SFleb (S754_zero false) x && SFleb x float_one
           && match (h ← float_of_int 100; round_float (fmul x h)) with
              | Ok r => r =? v
              | Raise _ => false
              end
       | Raise _ => false
       end)
    (Z_range 0 101) = true.
Proof. vm_compute. reflexivity. Qed.

(** X15. The percentage setter undoes the percentage getter: for a volume
    [v] from 0 to 100, the [float] [v / 100] lies between 0 and 1 and
    multiplying it by 100 and rounding gives [v] again, so setting that
    percentage is setting the volume [v]. *)
Theorem percentage_of_volume_sets_volume (s : AVR) (v : Z) :
  0 <= v <= 100 ->
  exists x,
    int_truediv v 100 = Ok x /\
    (volume s = Ok v -> volume_as_percentage s = Ok x) /\
    set_volume_as_percentage s (PyFloat x) = set_volume s (PyInt v).
Proof.
  intros Hv. pose proof percentage_table as H.
  rewrite forallb_forall in H.
  specialize (H v (in_Z_range 0 v 101 ltac:(lia))).
  destruct (int_truediv v 100) as [x|] eqn:Hx; [|discriminate H].
  apply andb_true_iff in H as [Hr H].
  exists x. split; [reflexivity|]. split.
  - intros Hvol. unfold volume_as_percentage. rewrite Hvol.
    cbn [mbind Result_bind]. exact Hx.
  - unfold set_volume_as_percentage. rewrite Hr.
    destruct (float_of_int 100) as [h|]; [|discriminate H].
    cbn [mbind Result_bind] in H |- *.
    destruct (round_float (fmul x h)) as [r|]; [|discriminate H].
    apply Z.eqb_eq in H. subst r. reflexivity.
Qed.

Lemma percentage_of_volume_sets_volume_witness :
  exists x,
    int_truediv 29 100 = Ok x /\
    (volume just_connected = Ok 29 ->
     volume_as_percentage just_connected = Ok x) /\
    set_volume_as_percentage just_connected (PyFloat x)
      = set_volume just_connected (PyInt 29).
Proof. apply (percentage_of_volume_sets_volume just_connected 29). lia. Defined.

(** ** Connection and probe *)

(** X16. Losing the connection. With a loop attached [connection_lost]
    returns; it detaches the transport, keeps the stored attributes and
    schedules the caller's callback if one was supplied. From then on a
    command is logged and dropped with a warning, nothing is written, and a
    chunk of bytes makes [data_received] raise [AttributeError], because it
    pauses a transport that is no longer there. *)
Theorem connection_lost_detaches_the_transport
    (s : AVR) (l : Loop) (exc : option string) :
  _loop s = Some l ->
  exists s',
    connection_lost s exc = Ok s' /\
    transport s' = None /\
    attrs s' = attrs s /\
    ready_handles s' =
      (ready_handles s ++
       (if _connection_lost_callback s then [H_connection_lost_callback]
        else []))%list /\
    (forall data, data_received s' data = Raise AttributeError) /\
    (forall command data,
        sent (send_command s' command data) = [] /\
        transport (send_command s' command data) = None /\
        log (send_command s' command data) =
          (log s' ++
           [mkLogRecord DEBUG "> %s" [LStr (wire command data)];
            mkLogRecord WARNING "No transport found, unable to send command"
              []])%list).
Proof.
  intros Hl. unfold connection_lost, call_soon.
  destruct s as [lo lg clc uc buf flag vus tgt tr ats].
  cbn in Hl. subst lo.
  destruct exc as [e|], clc; cbn; eexists; (split; [reflexivity|]); cbn;
    rewrite ?app_nil_r;
    (repeat match goal with |- _ /\ _ => split end;
     [reflexivity|reflexivity|reflexivity|reflexivity|]);
    intros command data; cbn; unfold wire; rewrite <- !app_assoc;
    repeat split.
Qed.

Lemma connection_lost_detaches_the_transport_witness :
  exists s',
    connection_lost just_connected (Some "reset by peer") = Ok s' /\
    transport s' = None /\
    attrs s' = attrs just_connected /\
    ready_handles s' =
      (ready_handles just_connected ++
       (if _connection_lost_callback just_connected
        then [H_connection_lost_callback] else []))%list /\
    (forall data, data_received s' data = Raise AttributeError) /\
    (forall command data,
        sent (send_command s' command data) = [] /\
        transport (send_command s' command data) = None /\
        log (send_command s' command data) =
          (log s' ++
           [mkLogRecord DEBUG "> %s" [LStr (wire command data)];
            mkLogRecord WARNING "No transport found, unable to send command"
              []])%list).
Proof.
  apply (connection_lost_detaches_the_transport just_connected
           (mkLoop [] []) (Some "reset by peer")).
  reflexivity.
Defined.

Lemma attribute_is_stored (s : AVR) (key rest : string) :
  operational s = true ->
  In key (dict_keys LOOKUP) ->
  exists s',
    _parse_message s (key +:+ rest) = Ok s' /\
    _get_attribute_value s' key = Ok (slice_from 1 rest).
Proof.
  intros Hop Hin.
  destruct (attr_name_catalog key Hin) as [name Hname].
  destruct (parse_message_spec s (key +:+ rest) Hop)
    as (p & u & cmds & s' & Hrun & _ & _ & _ & _ & _ & _ & _ & _ & _ & _
        & _ & _ & _ & _ & _ & _ & _ & _ & HD).
  destruct (HD key name Hin (startswith_self key rest) Hname)
    as (old & on & _ & Hat & _).
  rewrite slice_from_app in Hat.
  exists s'. split; [exact Hrun|].
  unfold _get_attribute_value. rewrite Hname. cbn [mbind Result_bind].
  unfold getattr. rewrite Hat, lookup_insert_eq. reflexivity.
Qed.

(** X17. The two version properties read what the device reported: after a
    software-version or protocol-version message they give the text of the
    message, and ["Unknown Version"] when that text is empty. *)
Theorem version_is_reported (s : AVR) (rest : string) :
  operational s = true ->
  (exists s',
      _parse_message s (ATTR_SW_VERSION +:+ rest) = Ok s' /\
      sw_version s' =
        Ok (if String.eqb (slice_from 1 rest) "" then "Unknown Version"
            else slice_from 1 rest)) /\
  (exists s',
      _parse_message s (ATTR_PROTOCOL_VERSION +:+ rest) = Ok s' /\
      protocol_version s' =
        Ok (if String.eqb (slice_from 1 rest) "" then "Unknown Version"
            else slice_from 1 rest)).
Proof.
  intros Hop. split.
  - destruct (attribute_is_stored s ATTR_SW_VERSION rest Hop)
      as (s' & Hrun & Hget); [cbn; tauto|].
    exists s'. split; [exact Hrun|]. unfold sw_version. rewrite Hget.
    reflexivity.
  - destruct (attribute_is_stored s ATTR_PROTOCOL_VERSION rest Hop)
      as (s' & Hrun & Hget); [cbn; tauto|].
    exists s'. split; [exact Hrun|]. unfold protocol_version. rewrite Hget.
    reflexivity.
Qed.

Lemma version_is_reported_witness :
  (exists s',
      _parse_message just_connected (ATTR_SW_VERSION +:+ ",v1.3") = Ok s' /\
      sw_version s' =
        Ok (if String.eqb (slice_from 1 ",v1.3") "" then "Unknown Version"
            else slice_from 1 ",v1.3")) /\
  (exists s',
      _parse_message just_connected (ATTR_PROTOCOL_VERSION +:+ ",v1.3")
        = Ok s' /\
      protocol_version s' =
        Ok (if String.eqb (slice_from 1 ",v1.3") "" then "Unknown Version"
            else slice_from 1 ",v1.3")).
Proof.
  apply (version_is_reported just_connected ",v1.3").
  vm_compute. reflexivity.
Defined.

(** X18. A handler from [__init__] with a loop: the constructor returns,
    every attribute of the catalog reads as the empty text, and both
    versions read ["Unknown Version"]. Before [connection_made] a chunk of
    bytes raises [AttributeError]; after it the handler is in working
    order, with nothing written yet beyond what the transport had. *)
Theorem new_handler_is_operational
    (update_callback connection_lost_callback : bool) (l : Loop)
    (t : Transport) :
  exists s,
    __init__ update_callback (Some l) connection_lost_callback = Ok s /\
    (forall key,
        In key (dict_keys LOOKUP) -> _get_attribute_value s key = Ok "") /\
    sw_version s = Ok "Unknown Version" /\
    protocol_version s = Ok "Unknown Version" /\
    (forall data, data_received s data = Raise AttributeError) /\
    operational (connection_made s t) = true /\
    attrs (connection_made s t) = attrs s /\
    sent (connection_made s t) = written t /\
    ready_handles (connection_made s t) = ready l /\
    armed_timers (connection_made s t) = timers l.
Proof.
  exists (mkAVR (Some l) [] connection_lost_callback update_callback "" false
            0 None None (attrs just_connected)).
  split; [vm_compute; reflexivity|].
  assert (Hget : forall key,
             In key (dict_keys LOOKUP) ->
             _get_attribute_value
               (mkAVR (Some l) [] connection_lost_callback update_callback ""
                  false 0 None None (attrs just_connected)) key = Ok "").
  { intros key Hin. cbn in Hin.
    repeat (destruct Hin as [<- | Hin]; [vm_compute; reflexivity|]).
    destruct Hin. }
  split; [exact Hget|].
  split; [unfold sw_version; rewrite Hget; [reflexivity|cbn; tauto]|].
  split; [unfold protocol_version; rewrite Hget; [reflexivity|cbn; tauto]|].
  split; [reflexivity|].
  split.
  { unfold operational, has_transport.
    cbn [connection_made transport debug with_log with_transport _loop].
    rewrite andb_true_r, andb_true_r. unfold initialised.
    apply forallb_forall. intros key Hin.
    change (_get_attribute_value _ key)
      with (_get_attribute_value
              (mkAVR (Some l) [] connection_lost_callback update_callback ""
                 false 0 None None (attrs just_connected)) key).
    rewrite (Hget key Hin). reflexivity. }
  repeat split.
Qed.

(** X19. The power-on callback on a handler in working order returns, sets
    the power-on flag and keeps the handler in working order and its
    attributes as they were. When the probe is idle or requested it writes
    one Volume-Down, arms the retry timer and leaves the probe requested;
    when the probe is completed it writes nothing and makes it idle. *)
Theorem poweron_callback_sets_the_flag (s : AVR) :
  operational s = true ->
  exists s',
    _poweron_callback s = Ok s' /\
    operational s' = true /\
    _poweron_refresh_successful s' = true /\
    attrs s' = attrs s /\
    ready_handles s' = ready_handles s /\
    (_volume_update_state s = 0 \/ _volume_update_state s = 1 ->
     sent s' = (sent s ++ [wire CMD_VOLUME_DOWN ""])%list /\
     armed_timers s' = (armed_timers s ++ [(2, H_refresh_volume 1)])%list /\
     _volume_update_state s' = 1) /\
    (_volume_update_state s = 2 ->
     sent s' = sent s /\
     armed_timers s' = armed_timers s /\
     _volume_update_state s' = 0).
Proof.
  intros Hop. destruct (operational_parts s Hop) as (Hi & [l Hl] & [t Ht]).
  unfold _poweron_callback, _refresh_volume, call_later, send_command.
  destruct s as [lo lg clc uc buf flag vus tgt tr ats].
  cbn in Hl, Ht. subst lo tr.
  destruct (Z.eq_dec vus 0) as [->|N0];
    [|destruct (Z.eq_dec vus 1) as [->|N1];
      [|destruct (Z.eq_dec vus 2) as [->|N2]]].
  4: { cbn. rewrite (proj2 (Z.eqb_neq vus 0) N0). cbn.
       rewrite (proj2 (Z.eqb_neq vus 1) N1). cbn.
       rewrite (proj2 (Z.eqb_neq vus 2) N2). cbn.
       eexists. split; [reflexivity|].
       split; [eapply operational_intro; [exact Hi|reflexivity|reflexivity]|].
       cbn. repeat match goal with |- _ /\ _ => split end;
         try reflexivity; intros H; exfalso; lia. }
  all: cbn; eexists; (split; [reflexivity|]).
  all: split; [eapply operational_intro; [exact Hi|reflexivity|reflexivity]|].
  all: cbn; repeat match goal with |- _ /\ _ => split end;
    try reflexivity.
  all: intros H; first [exfalso; lia | repeat split].
Qed.

Lemma poweron_callback_sets_the_flag_witness :
  exists s',
    _poweron_callback just_connected = Ok s' /\
    operational s' = true /\
    _poweron_refresh_successful s' = true /\
    attrs s' = attrs just_connected /\
    ready_handles s' = ready_handles just_connected /\
    (_volume_update_state just_connected = 0
     \/ _volume_update_state just_connected = 1 ->
     sent s' = (sent just_connected ++ [wire CMD_VOLUME_DOWN ""])%list /\
     armed_timers s' =
       (armed_timers just_connected ++ [(2, H_refresh_volume 1)])%list /\
     _volume_update_state s' = 1) /\
    (_volume_update_state just_connected = 2 ->
     sent s' = sent just_connected /\
     armed_timers s' = armed_timers just_connected /\
     _volume_update_state s' = 0).
Proof.
  apply (poweron_callback_sets_the_flag just_connected).
  vm_compute. reflexivity.
Defined.

(** X20. No setter touches what the handler has stored: after a write to
    [power], [mute], [input_number], [input_name], [attenuation], [volume]
    or [volume_as_percentage] every attribute reads as before, until the
    device reports the change. *)
Theorem setters_keep_the_attributes (s : AVR) (value : PyValue) :
  attrs (set_power s value) = attrs s /\
  attrs (set_mute s value) = attrs s /\
  attrs (set_input_number s value) = attrs s /\
  attrs (set_input_name s value) = attrs s /\
  (forall s', set_attenuation s value = Ok s' -> attrs s' = attrs s) /\
  (forall s', set_volume s value = Ok s' -> attrs s' = attrs s) /\
  (forall s', set_volume_as_percentage s value = Ok s' -> attrs s' = attrs s).
Proof.
  assert (Hsend : forall s0 c d, attrs (send_command s0 c d) = attrs s0).
  { intros s0 c d. unfold send_command. cbn [transport debug with_log].
    destruct (transport s0); reflexivity. }
  assert (Hnum : forall v, attrs (set_input_number s v) = attrs s).
  { intros v. unfold set_input_number. destruct v; try reflexivity.
    destruct ((1 <=? n) && (n <=? 99)); [|reflexivity].
    rewrite Hsend. reflexivity. }
  assert (Hatt : forall v s',
             set_attenuation s v = Ok s' -> attrs s' = attrs s).
  { intros v s' H. unfold set_attenuation in H.
    apply bind_Ok in H as (cur & _ & H).
    destruct v as [|v|x|t]; try (injection H as <-; reflexivity).
    destruct ((-90 <=? v) && (v <=? 0) && negb (v =? cur));
      injection H as <-; [|reflexivity].
    rewrite Hsend. reflexivity. }
  assert (Hvol : forall v s', set_volume s v = Ok s' -> attrs s' = attrs s).
  { intros v s' H. unfold set_volume in H.
    destruct v as [|v|x|t]; try (injection H as <-; reflexivity).
    destruct ((0 <=? v) && (v <=? 100)); [|injection H as <-; reflexivity].
    apply bind_Ok in H as (a & _ & H). exact (Hatt _ s' H). }
  repeat match goal with |- _ /\ _ => split end.
  - apply Hsend.
  - apply Hsend.
  - apply Hnum.
  - unfold set_input_name.
    match goal with |- context [if ?c then _ else _] => destruct c end;
      [apply Hnum|reflexivity].
  - apply Hatt.
  - apply Hvol.
  - intros s' H. unfold set_volume_as_percentage in H.
    destruct value as [|v|x|t]; try (injection H as <-; reflexivity).
    + destruct ((0 <=? v) && (v <=? 1)); [|injection H as <-; reflexivity].
      exact (Hvol _ s' H).
    + destruct (SFleb (S754_zero false) x && SFleb x float_one);
        [|injection H as <-; reflexivity].
      apply bind_Ok in H as (h & _ & H). apply bind_Ok in H as (r & _ & H).
      exact (Hvol _ s' H).
Qed.

(** ** Setter and decoder together *)

(** X21. The attenuation setter starts the convergence and the decoder
    carries it on. For a target between -90 and 0 other than the stored
    attenuation the setter keeps the target and writes one volume step
    towards it. If the target is not 0 and no probe is requested, every
    later volume message with an integer other than the target writes one
    more step towards the target and keeps it, and a message that reports
    the target clears it and writes nothing. *)
Theorem attenuation_setter_converges (s : AVR) (target cur : Z) :
  operational s = true ->
  _get_integer s ATTR_VOLUME_UP = Ok cur ->
  -90 <= target <= 0 ->
  target <> cur ->
  exists s1,
    set_attenuation s (PyInt target) = Ok s1 /\
    operational s1 = true /\
    attrs s1 = attrs s /\
    _volume_target s1 = Some target /\
    sent s1 =
      (sent s ++
       [wire (if target >? cur then CMD_VOLUME_UP else CMD_VOLUME_DOWN)
          ""])%list /\
    (target <> 0 -> _volume_update_state s <> 1 ->
     forall (key v : string) (n : Z),
       key = ATTR_VOLUME_UP \/ key = ATTR_VOLUME_DOWN ->
       parse_int v = Some n ->
       exists s2,
         _parse_message s1 (key +:+ "," +:+ v) = Ok s2 /\
         (n <> target ->
          _volume_target s2 = Some target /\
          sent s2 =
            (sent s1 ++
             [wire (if target >? n then CMD_VOLUME_UP else CMD_VOLUME_DOWN)
                ""])%list) /\
         (n = target -> _volume_target s2 = None /\ sent s2 = sent s1)).
Proof.
  intros Hop Hcur Hr Hne.
  destruct (operational_parts s Hop) as (Hi & [l Hl] & [t Ht]).
  unfold set_attenuation. rewrite Hcur. cbn [mbind Result_bind].
  replace ((-90 <=? target) && (target <=? 0) && negb (target =? cur))
    with true.
  2: { symmetry. apply andb_true_iff. split.
       - apply andb_true_iff. split; apply Z.leb_le; lia.
       - apply negb_true_iff. apply Z.eqb_neq. exact Hne. }
  eexists. split; [reflexivity|].
  unfold send_command. cbn [transport debug with_log with_volume_target].
  rewrite Ht.
  match goal with
  | |- operational ?x = true /\ _ =>
      assert (Hi1 : initialised x = true) by exact Hi;
      assert (Hl1 : _loop x = Some l) by exact Hl
  end.
  split; [eapply operational_intro; [exact Hi1|exact Hl1|reflexivity]|].
  split; [reflexivity|]. split; [reflexivity|].
  split; [unfold sent; cbn; rewrite Ht; reflexivity|].
  intros H0 Hs key v n Hkey Hn.
  eapply nonzero_target_is_pursued;
    [exact Hi1|exact Hl1|reflexivity|exact Hkey|exact Hn|reflexivity
    |exact H0|exact Hs].
Qed.

Lemma attenuation_setter_converges_witness :
  exists s1,
    set_attenuation just_connected (PyInt (-30)) = Ok s1 /\
    operational s1 = true /\
    attrs s1 = attrs just_connected /\
    _volume_target s1 = Some (-30) /\
    sent s1 =
      (sent just_connected ++
       [wire (if -30 >? 0 then CMD_VOLUME_UP else CMD_VOLUME_DOWN)
          ""])%list /\
    (-30 <> 0 -> _volume_update_state just_connected <> 1 ->
     forall (key v : string) (n : Z),
       key = ATTR_VOLUME_UP \/ key = ATTR_VOLUME_DOWN ->
       parse_int v = Some n ->
       exists s2,
         _parse_message s1 (key +:+ "," +:+ v) = Ok s2 /\
         (n <> -30 ->
          _volume_target s2 = Some (-30) /\
          sent s2 =
            (sent s1 ++
             [wire (if -30 >? n then CMD_VOLUME_UP else CMD_VOLUME_DOWN)
                ""])%list) /\
         (n = -30 -> _volume_target s2 = None /\ sent s2 = sent s1)).
Proof.
  apply (attenuation_setter_converges just_connected (-30) 0).
  - vm_compute. reflexivity.
  - vm_compute. reflexivity.
  - lia.
  - lia.
Defined.

Lemma catalog_key_not_empty (key rest : string) :
  In key (dict_keys LOOKUP) -> String.eqb (key +:+ rest) "" = false.
Proof.
  cbn. intros H.
  repeat (destruct H as [<- | H]; [reflexivity|]).
  destruct H.
Qed.

(** X22. A complete line updates the attribute. On a handler in working
    order whose buffer is empty, a chunk made of one attribute message
    without a carriage return and the terminator is decoded as that one
    message: afterwards the attribute reads as the text of the message,
    the buffer is empty again and reading is resumed. *)
Theorem terminated_message_is_stored (s : AVR) (key rest : string) :
  operational s = true ->
  buffer s = "" ->
  In key (dict_keys LOOKUP) ->
  forallb (fun c => negb (Ascii.eqb c CR))
    (list_ascii_of_string (key +:+ rest)) = true ->
  exists (s' : AVR) (t' : Transport),
    data_received s (line (key +:+ rest)) = Ok s' /\
    _get_attribute_value s' key = Ok (slice_from 1 rest) /\
    buffer s' = "" /\
    transport s' = Some t' /\
    reading_paused t' = false.
Proof.
  intros Hop Hbuf Hin Hcr.
  destruct (operational_parts s Hop) as (Hi & [l Hl] & [t Ht]).
  unfold data_received, _assemble_buffer.
  set (s0 := debug (with_buffer s (buffer s +:+ line (key +:+ rest))) _ _).
  unfold set_reading_paused at 2.
  change (transport s0) with (transport s). rewrite Ht.
  cbn [mbind Result_bind].
  set (s1 := with_transport s0 _).
  change (buffer s1) with (buffer s +:+ line (key +:+ rest)).
  rewrite Hbuf. change ("" +:+ line (key +:+ rest))
    with ((key +:+ rest) +:+ String CR "").
  rewrite (proj1 (split_line (key +:+ rest) "" Hcr)).
  cbn [parse_messages split]. rewrite (catalog_key_not_empty key rest Hin).
  cbn [negb String.eqb].
  set (s2 := debug s1 "assembled message %s" [LStr (key +:+ rest)]).
  assert (Hop2 : operational s2 = true).
  { eapply operational_intro; [exact Hi|exact Hl|reflexivity]. }
  destruct (attribute_is_stored s2 key rest Hop2 Hin) as (s3 & Hrun & Hget).
  destruct (parse_message_spec s2 (key +:+ rest) Hop2)
    as (p & u & cmds & s3' & Hrun' & Hop3 & _).
  rewrite Hrun in Hrun'. injection Hrun' as <-.
  rewrite Hrun. cbn [mbind Result_bind].
  destruct (operational_parts s3 Hop3) as (_ & _ & [t3 Ht3]).
  unfold set_reading_paused. cbn [transport with_buffer]. rewrite Ht3.
  eexists _, _. split; [reflexivity|].
  split; [exact Hget|]. repeat split.
Qed.

Lemma terminated_message_is_stored_witness :
  exists (s' : AVR) (t' : Transport),
    data_received just_connected (line (ATTR_POWER_STATE +:+ ",1")) = Ok s' /\
    _get_attribute_value s' ATTR_POWER_STATE = Ok (slice_from 1 ",1") /\
    buffer s' = "" /\
    transport s' = Some t' /\
    reading_paused t' = false.
Proof.
  apply (terminated_message_is_stored just_connected ATTR_POWER_STATE ",1").
  - vm_compute. reflexivity.
  - reflexivity.
  - simpl. tauto.
  - reflexivity.
Defined.
